(** * Cycle-time extraction from an issue tracker: a shallow embedding

    The development follows [jira_metrics.py]: the resilient request
    executor ([_make_request_with_retry]), the paginated fetcher
    ([get_issues] and its two strategies), the changelog replay engine
    ([calculate_cycle_time]) and the metrics assembler
    ([extract_metrics]).

    Conventions.
    - A Python [str] is a [string]; comparison of strings is
      lexicographic on bytes, which for UTF-8 text is code-point order.
    - A Python [set] of status names is a [gset string].
    - A Python exception is a value of [exn]; code that can raise
      returns a [result].
    - Python floats are kept abstract behind the interface [PyFloat]:
      every theorem holds for any arithmetic that implements it, and
      the examples run it on exact rationals.
    - Timestamps and durations are integers counting microseconds, the
      resolution of [datetime] and [timedelta].
    - [time.sleep] is a parameter, [Platform]: how long a pause it
      accepts depends on the machine.  Every theorem on the executor
      holds for any platform, and the examples run on one. *)

From Stdlib Require Import ZArith QArith List String Ascii Bool Lia.
From Stdlib Require Import Sorted Permutation.
From stdpp Require Import gmap strings.
Import ListNotations.

Local Open Scope string_scope.
Local Open Scope list_scope.
Local Open Scope Z_scope.

(** ** Python runtime *)

Module Py.

(** The exception classes the program can meet.  [HTTPError] and
    [ConnectionError] are the subclasses of
    [requests.exceptions.RequestException]; [PlainException] is a bare
    [Exception(...)]; [OverflowError] and [OSError] are what
    [time.sleep] raises for a length it cannot sleep. *)
Inductive exn : Type :=
  | ValueError
  | TypeError
  | KeyError
  | JSONDecodeError
  | HTTPError (status : Z)
  | ConnectionError
  | PlainException
  | OverflowError
  | OSError.

(** [isinstance(e, requests.exceptions.RequestException)]. *)
Definition is_RequestException (e : exn) : bool :=
  match e with
  | HTTPError _ | ConnectionError => true
  | _ => false
  end.

Inductive result (A : Type) : Type :=
  | Ok (a : A)
  | Raise (e : exn).
Arguments Ok {A} a.
Arguments Raise {A} e.

Definition bind {A B : Type} (r : result A) (k : A -> result B) : result B :=
  match r with
  | Ok a => k a
  | Raise e => Raise e
  end.

(** *** [time.sleep]

    [sleep n] is [time.sleep(n + jitter)] for a whole number [n] of
    seconds and a random jitter between 0 and 1, with the float
    arithmetic that builds the length: it pauses and returns, or it
    raises.  A negative length is rejected, with [ValueError] or, far
    below zero, with [OverflowError].  The longest length accepted
    depends on the platform and on its clock: CPython counts the
    length and the deadline in nanoseconds on 64 bits and raises
    [OverflowError] or [OSError] beyond, older versions hand the
    length to [select], and an integer outside the range of a float
    makes the arithmetic itself raise [OverflowError].  The function
    is therefore a parameter, with the laws every platform satisfies:
    nothing negative is slept, a minute is always accepted, and only
    these three exceptions are raised.  An exception that a signal
    handler raises during the pause is, as everywhere in the program,
    outside the model. *)
Class Platform : Type := {
  sleep : Z -> result unit;
  sleep_negative : forall n, n < 0 -> sleep n <> Ok tt;
  sleep_minute : forall n, 0 <= n <= 60 -> sleep n = Ok tt;
  sleep_raises : forall n e,
    sleep n = Raise e -> e = ValueError \/ e = OverflowError \/ e = OSError
  }.

(** *** Floats *)

(** The float operations the program performs, and the one law about
    signs that the assembler relies on.  IEEE-754 doubles satisfy it
    (a positive dividend over a positive divisor never rounds below
    zero), and so do the rationals. *)
Class PyFloat (F : Type) : Type := {
  f_zero : F;                      (* 0.0 *)
  f_add : F -> F -> F;             (* x + y *)
  f_div : F -> Z -> F;             (* x / n, n an int literal *)
  total_seconds : Z -> F;          (* timedelta.total_seconds() *)
  f_gt0 : F -> bool;               (* x > 0 *)
  f_lt0 : F -> bool;               (* x < 0 *)
  f_div_sign : forall x n, f_gt0 x = true -> 0 < n -> f_lt0 (f_div x n) = false
  }.

(** A number that is either an [int] or a [float], as the value stored
    under ['cycle_time_days']. *)
Inductive num (F : Type) : Type :=
  | Int (z : Z)
  | Float (x : F).
Arguments Int {F} z.
Arguments Float {F} x.

Definition num_lt0 {F} `{PyFloat F} (n : num F) : bool :=
  match n with
  | Int z => z <? 0
  | Float x => f_lt0 x
  end.

(** *** Strings *)

(** [c in s] for a one-character [c]. *)
Fixpoint contains (c : ascii) (s : string) : bool :=
  match s with
  | EmptyString => false
  | String a s' => if Ascii.eqb a c then true else contains c s'
  end.

(** [s.split(c)[0]]: the text before the first [c]. *)
Fixpoint split_head (c : ascii) (s : string) : string :=
  match s with
  | EmptyString => EmptyString
  | String a s' => if Ascii.eqb a c then EmptyString else String a (split_head c s')
  end.

(** [s.replace(c, '')]. *)
Fixpoint remove_char (c : ascii) (s : string) : string :=
  match s with
  | EmptyString => EmptyString
  | String a s' => if Ascii.eqb a c then remove_char c s' else String a (remove_char c s')
  end.

(** *** [sorted(l, key=...)]

    Python's sort is stable.  The stable sorted arrangement of a list
    under a total preorder is unique, so insertion sort that places an
    element before the first strictly greater-or-equal one computes the
    list [sorted] returns. *)
Section Sorted.
Context {A K : Type} (leb : K -> K -> bool) (key : A -> K).

Fixpoint insert (x : A) (l : list A) : list A :=
  match l with
  | [] => [x]
  | y :: l' => if leb (key x) (key y) then x :: y :: l' else y :: insert x l'
  end.

Fixpoint sorted (l : list A) : list A :=
  match l with
  | [] => []
  | x :: l' => insert x (sorted l')
  end.
End Sorted.

(** *** [datetime] and [timedelta] *)

(** A [datetime] is its wall-clock reading and, when it is aware, the
    offset of its fixed time zone from UTC. *)
Record datetime : Type := {
  wall : Z;
  tzinfo : option Z
  }.

(** [a - b], a [timedelta].  Two aware values are compared on the UTC
    line, two naive ones on their wall clocks; mixing them raises. *)
Definition dt_sub (a b : datetime) : result Z :=
  match tzinfo a, tzinfo b with
  | Some oa, Some ob => Ok ((wall a - oa) - (wall b - ob))
  | None, None => Ok (wall a - wall b)
  | _, _ => Raise TypeError
  end.

(** [a <= b], where the comparison is defined. *)
Definition dt_leb (a b : datetime) : bool :=
  match dt_sub b a with
  | Ok d => 0 <=? d
  | Raise _ => false
  end.

(** The system clock: the current UTC instant and the offset of the
    local zone, which [datetime.now(None)] uses. *)
Record clock : Type := {
  utc_now : Z;
  local_offset : Z
  }.

(** [datetime.now(tz)]. *)
Definition now (c : clock) (tz : option Z) : datetime :=
  match tz with
  | Some o => {| wall := utc_now c + o; tzinfo := Some o |}
  | None => {| wall := utc_now c + local_offset c; tzinfo := None |}
  end.

End Py.
Import Py.

Notation "'let*' x ':=' e 'in' k" := (bind e (fun x => k))
  (at level 10, x name, e at level 100, k at level 200).

(** ** The remote JSON schema

    Objects are records of the keys the program reads.  A key read with
    [d.get(k)] is an [option]; a key read with [d[k]] on an object the
    remote API documents as carrying it is a plain field. *)

(** One entry of [history['items']]. *)
Record item : Type := {
  field : string;
  fromString : option string;
  toString : option string
}.

(** One entry of [changelog['histories']]. *)
Record history : Type := {
  h_created : string;
  items : list item
}.

(** [issue['fields']]; [status_name] is [fields['status']['name']], and
    [assignee], [priority], [issuetype] hold the display name of the
    nested object when it is present and truthy. *)
Record fields : Type := {
  summary : string;
  status_name : string;
  created : string;
  resolutiondate : option string;
  assignee : option string;
  priority : option string;
  issuetype : option string
}.

(** An issue object; [histories] is
    [issue.get('changelog', {}).get('histories', [])]. *)
Record issue : Type := {
  id : option string;
  key : string;
  issue_fields : fields;
  histories : list history
}.

(** The truthy part of an optional string: [None] and [''] are falsy. *)
Definition truthy (x : option string) : option string :=
  match x with
  | Some EmptyString => None
  | other => other
  end.

Definition is_truthy (x : option string) : bool :=
  match truthy x with
  | Some _ => true
  | None => false
  end.

(** [x in self.cycle_time_statuses] for a value that may be [None]. *)
Definition in_statuses (x : option string) (statuses : gset string) : bool :=
  match x with
  | Some s => bool_decide (s ∈ statuses)
  | None => false
  end.

(** ** Changelog replay engine *)

Section Replay.
Context {F : Type} `{PyFloat F}.

(** [datetime.strptime(s, fmt)] and [datetime.fromisoformat(s)] of the
    Python library; [None] stands for [ValueError]. *)
Variable strptime : string -> string -> option datetime.
Variable fromisoformat : string -> option datetime.

(** The [for fmt in [...]: try ... except ValueError: continue] loop of
    [parse_datetime]. *)
Fixpoint try_formats (date_str : string) (fmts : list string) : option datetime :=
  match fmts with
  | [] => None
  | fmt :: fmts' =>
      match strptime date_str fmt with
      | Some d => Some d
      | None => try_formats date_str fmts'
      end
  end.

Definition parse_datetime (date_str : string) : result datetime :=
  match try_formats date_str ["%Y-%m-%dT%H:%M:%S.%f%z"; "%Y-%m-%dT%H:%M:%S%z"]%string with
  | Some d => Ok d
  | None =>
      let date_str :=
        if contains "+" date_str then split_head "+" date_str
        else if contains "Z" date_str then remove_char "Z" date_str
        else date_str in
      match fromisoformat date_str with
      | Some d => Ok d
      | None => Raise ValueError
      end
  end.

(** An entry of [status_changes]. *)
Record status_change : Type := {
  date : datetime;
  from_status : option string;
  to_status : option string
}.

(** An entry of [status_periods]. *)
Record period : Type := {
  status : string;
  start : datetime;
  end_ : datetime;
  duration_hours : F
}.

(** The inner loop over [history['items']]. *)
Definition status_items (change_date : datetime) (its : list item) : list status_change :=
  map (fun it => {| date := change_date;
                    from_status := fromString it;
                    to_status := toString it |})
      (List.filter (fun it => String.eqb (field it) "status") its).

(** The outer loop over the histories, already sorted. *)
Fixpoint collect (hs : list history) : result (list status_change) :=
  match hs with
  | [] => Ok []
  | h :: hs' =>
      let* change_date := parse_datetime (h_created h) in
      let* rest := collect hs' in
      Ok (status_items change_date (items h) ++ rest)
  end.

(** [sorted(histories, key=lambda x: x['created'])]: the key is the
    text of the timestamp. *)
Definition sorted_histories (hs : list history) : list history :=
  sorted String.leb h_created hs.

(** The variables of the replay loop. *)
Record walk : Type := {
  total_cycle_time : F;
  status_periods : list period;
  current_cycle_start : option datetime
}.

Definition hours (td : Z) : F := f_div (total_seconds td) 3600.

(** One iteration of [for i, change in enumerate(status_changes)]. *)
Definition step (statuses : gset string) (change : status_change) (w : walk)
  : result walk :=
  let* w1 :=
    match from_status change, current_cycle_start w with
    | Some fs, Some cs =>
        if bool_decide (fs ∈ statuses) then
          let* td := dt_sub (date change) cs in
          let duration := hours td in
          Ok {| total_cycle_time := f_add (total_cycle_time w) duration;
                status_periods :=
                  status_periods w ++
                  [{| status := fs; start := cs; end_ := date change;
                      duration_hours := duration |}];
                current_cycle_start := None |}
        else Ok w
    | _, _ => Ok w
    end in
  if in_statuses (to_status change) statuses then
    Ok {| total_cycle_time := total_cycle_time w1;
          status_periods := status_periods w1;
          current_cycle_start := Some (date change) |}
  else Ok w1.

Fixpoint replay (statuses : gset string) (changes : list status_change) (w : walk)
  : result walk :=
  match changes with
  | [] => Ok w
  | change :: changes' =>
      let* w' := step statuses change w in
      replay statuses changes' w'
  end.

(** The state in which the loop starts. *)
Definition initial (statuses : gset string) (created_date : datetime)
    (changes : list status_change) : walk :=
  {| total_cycle_time := f_zero;
     status_periods := [];
     current_cycle_start :=
       match changes with
       | change :: _ =>
           if in_statuses (to_status change) statuses then Some created_date else None
       | [] => None
       end |}.

(** The [end_date] of the closing period. *)
Definition closing_date (clk : clock) (i : issue) (cs : datetime) : result datetime :=
  let end_date := now clk (tzinfo cs) in
  match truthy (resolutiondate (issue_fields i)) with
  | Some r => parse_datetime r
  | None => Ok end_date
  end.

(** The block after the loop. *)
Definition finish (clk : clock) (statuses : gset string) (i : issue) (w : walk)
  : result (F * list period) :=
  let current_status := status_name (issue_fields i) in
  match current_cycle_start w with
  | Some cs =>
      if bool_decide (current_status ∈ statuses) then
        let* end_date := closing_date clk i cs in
        let* td := dt_sub end_date cs in
        let duration := hours td in
        Ok (f_add (total_cycle_time w) duration,
            status_periods w ++
            [{| status := current_status; start := cs; end_ := end_date;
                duration_hours := duration |}])
      else Ok (total_cycle_time w, status_periods w)
  | None => Ok (total_cycle_time w, status_periods w)
  end.

(** The state after the last event. *)
Definition replay_issue (statuses : gset string) (i : issue) : result walk :=
  let* created_date := parse_datetime (created (issue_fields i)) in
  let* status_changes := collect (sorted_histories (histories i)) in
  replay statuses status_changes (initial statuses created_date status_changes).

Definition calculate_cycle_time (clk : clock) (statuses : gset string) (i : issue)
  : result (F * list period) :=
  match histories i with
  | [] => Ok (f_zero, [])
  | _ :: _ =>
      let* w := replay_issue statuses i in
      finish clk statuses i w
  end.

End Replay.

(** ** Resilient request executor *)

(** The [Retry-After] header as [int(response.headers.get(...))] sees
    it: absent, an integer, or text that [int] rejects. *)
Inductive retry_after : Type :=
| NoHeader
| Seconds (n : Z)
| NotAnInteger.

(** A [requests.Response] with a body of type [B]; [json] is [None]
    when [response.json()] raises. *)
Record response (B : Type) : Type := {
  status_code : Z;
  retry_after_header : retry_after;
  json : option B
}.
Arguments status_code {B} r.
Arguments retry_after_header {B} r.
Arguments json {B} r.

(** What [session.request] does: it raises a [RequestException] of the
    transport, or returns a response. *)
Inductive outcome (B : Type) : Type :=
| Failed
| Replied (r : response B).
Arguments Failed {B}.
Arguments Replied {B} r.

(** The observable steps of the executor.  [RateLimit] is a call of
    [_rate_limit], whose pause changes no response: it lasts at most
    [request_interval], a minute or less for the whole number of
    requests per minute that [set_rate_limit] takes, which every
    platform sleeps.  [Sleep429 n] is the pause of [n] seconds plus
    jitter after a 429; [Backoff a] is the pause of
    [base_backoff * 2 ** a] seconds plus jitter, with the
    [base_backoff] of one second that [__init__] sets.  These two are
    recorded when [time.sleep] has returned from them. *)
Inductive event : Type :=
| RateLimit
| Request
| Sleep429 (seconds : Z)
| Backoff (attempt : Z).

(** The client: how many requests it has sent, and what it did, oldest
    step first. *)
Record session : Type := {
  sent : nat;
  trace : list event
}.

Definition log (e : event) (s : session) : session :=
  {| sent := sent s; trace := trace s ++ [e] |}.

Definition is_Request (e : event) : bool :=
  match e with Request => true | _ => false end.

Definition is_Backoff (e : event) : bool :=
  match e with Backoff _ => true | _ => false end.

(** The number of request attempts and of backoff sleeps in a trace. *)
Definition attempts_in (t : list event) : nat := length (List.filter is_Request t).
Definition backoffs_in (t : list event) : nat := length (List.filter is_Backoff t).

(** [response.raise_for_status()]. *)
Definition raise_for_status (code : Z) : result unit :=
  if (400 <=? code) && (code <? 600) then Raise (HTTPError code) else Ok tt.

Section Executor.
Context {platform : Platform}.

(** [self.max_retries]. *)
Variable max_retries : Z.

Context {B : Type}.

(** The answer of the remote to this request if it is the [n]-th one
    the session sends, counting from 0. *)
Variable respond : nat -> outcome B.

(** [self._rate_limit()] followed by [self.session.request(...)]. *)
Definition send (s : session) : outcome B * session :=
  (respond (sent s),
   {| sent := S (sent s); trace := trace s ++ [RateLimit; Request] |}).

(** An exception raised inside the [try] block at [attempt]: the
    [except requests.exceptions.RequestException] clause.  The backoff
    is slept inside the clause, so what [time.sleep] raises there
    leaves the call. *)
Definition handle (continue : session -> result (response B) * session)
    (e : exn) (attempt : Z) (s : session) : result (response B) * session :=
  if is_RequestException e then
    if attempt =? max_retries - 1 then (Raise e, s)
    else
      match sleep (2 ^ attempt) with
      | Ok _ => continue (log (Backoff attempt) s)
      | Raise e' => (Raise e', s)
      end
  else (Raise e, s).

(** [time.sleep(seconds + jitter)] and [continue] inside the [try]
    block: what [time.sleep] raises there meets the [except] clause
    like any other exception. *)
Definition pause (continue : session -> result (response B) * session)
    (e : event) (seconds attempt : Z) (s : session) : result (response B) * session :=
  match sleep seconds with
  | Ok _ => continue (log e s)
  | Raise ex => handle continue ex attempt s
  end.

(** The body of [for attempt in range(self.max_retries)], with
    [remaining] iterations to go. *)
Fixpoint attempts (remaining : nat) (attempt : Z) (s : session)
  : result (response B) * session :=
  match remaining with
  | O => (Raise PlainException, s)
  | S remaining' =>
      let continue := attempts remaining' (attempt + 1) in
      let (o, s) := send s in
      match o with
      | Failed => handle continue ConnectionError attempt s
      | Replied r =>
          if status_code r =? 429 then
            match retry_after_header r with
            | NotAnInteger => handle continue ValueError attempt s
            | Seconds n => pause continue (Sleep429 n) n attempt s
            | NoHeader => pause continue (Sleep429 60) 60 attempt s
            end
          else if 500 <=? status_code r then
            match (if attempt =? max_retries - 1
                   then raise_for_status (status_code r) else Ok tt) with
            | Raise e => handle continue e attempt s
            | Ok _ => pause continue (Backoff attempt) (2 ^ attempt) attempt s
            end
          else
            match raise_for_status (status_code r) with
            | Raise e => handle continue e attempt s
            | Ok _ => (Ok r, s)
            end
      end
  end.

Definition _make_request_with_retry (s : session) : result (response B) * session :=
  attempts (Z.to_nat max_retries) 0 s.

End Executor.

(** ** Paginated issue fetcher *)

(** The body of a search response: [data.get('issues')],
    [data.get('total')], [data.get('isLast')], [data.get('nextPageToken')]. *)
Record page : Type := {
  page_issues : option (list issue);
  page_total : option Z;
  page_isLast : option bool;
  page_nextPageToken : option string
}.

(** The three endpoints, each a function of the request parameters that
    vary and of the position of the request in the session. *)
Record remote : Type := {
  (* GET /rest/api/3/search/jql ? jql, maxResults, nextPageToken *)
  search_jql : string -> Z -> option string -> nat -> outcome page;
  (* GET /rest/api/3/search ? jql, maxResults, startAt *)
  search : string -> Z -> Z -> nat -> outcome page;
  (* GET /rest/api/3/issue/{issue_id} *)
  issue_detail : string -> nat -> outcome issue
}.

Definition len {A : Type} (l : list A) : Z := Z.of_nat (length l).

Section Fetcher.
Context {platform : Platform}.
Variable max_retries : Z.
Variable rem : remote.

(** [_get_issue_detail]: any exception becomes [None].  An issue
    object always has keys, so [if issue_detail] only tests for
    [None]. *)
Definition _get_issue_detail (issue_id : string) (s : session)
  : option issue * session :=
  match _make_request_with_retry max_retries (issue_detail rem issue_id) s with
  | (Ok r, s') => (json r, s')
  | (Raise _, s') => (None, s')
  end.

(** [for issue_summary in data.get('issues', [])]. *)
Fixpoint details (summaries : list issue) (issues : list issue) (s : session)
  : result (list issue) * session :=
  match summaries with
  | [] => (Ok issues, s)
  | issue_summary :: summaries' =>
      match id issue_summary with
      | None => (Raise KeyError, s)
      | Some issue_id =>
          let (d, s') := _get_issue_detail issue_id s in
          details summaries'
            (match d with Some i => issues ++ [i] | None => issues end) s'
      end
  end.

(** The [while] loop of [_get_issues_v3_jql]; [None] when [fuel]
    iterations were not enough. *)
Fixpoint jql_loop (fuel : nat) (jql : string) (max_results : Z)
    (issues : list issue) (next_page_token : option string) (s : session)
  : option (result (list issue) * session) :=
  if len issues <? max_results then
    match fuel with
    | O => None
    | S fuel' =>
        let maxResults := Z.min (max_results - len issues) 100 in
        match _make_request_with_retry max_retries
                (search_jql rem jql maxResults (truthy next_page_token)) s with
        | (Raise e, s1) => Some (Raise e, s1)
        | (Ok r, s1) =>
            match json r with
            | None => Some (Raise JSONDecodeError, s1)
            | Some data =>
                match details (default [] (page_issues data)) issues s1 with
                | (Raise e, s2) => Some (Raise e, s2)
                | (Ok issues', s2) =>
                    if default true (page_isLast data)
                       || negb (is_truthy (page_nextPageToken data))
                    then Some (Ok issues', s2)
                    else jql_loop fuel' jql max_results issues'
                           (page_nextPageToken data) s2
                end
            end
        end
    end
  else Some (Ok issues, s).

Definition _get_issues_v3_jql (fuel : nat) (jql : string) (max_results : Z)
    (s : session) : option (result (list issue) * session) :=
  jql_loop fuel jql max_results [] None s.

(** The [while] loop of [_get_issues_v3_search]. *)
Fixpoint search_loop (fuel : nat) (jql : string) (max_results : Z)
    (issues : list issue) (start_at : Z) (s : session)
  : option (result (list issue) * session) :=
  if len issues <? max_results then
    match fuel with
    | O => None
    | S fuel' =>
        let maxResults := Z.min (max_results - len issues) 100 in
        match _make_request_with_retry max_retries
                (search rem jql maxResults start_at) s with
        | (Raise e, s1) => Some (Raise e, s1)
        | (Ok r, s1) =>
            match json r with
            | None => Some (Raise JSONDecodeError, s1)
            | Some data =>
                let got := default [] (page_issues data) in
                let issues' := issues ++ got in
                if (len got =? 0) || (default 0 (page_total data) <=? len issues')
                then Some (Ok issues', s1)
                else search_loop fuel' jql max_results issues' (start_at + len got) s1
            end
        end
    end
  else Some (Ok issues, s).

(** Every iteration that does not leave the loop lengthens [issues],
    so [max_results] iterations are always enough. *)
Definition _get_issues_v3_search (jql : string) (max_results : Z) (s : session)
  : option (result (list issue) * session) :=
  search_loop (Z.to_nat max_results) jql max_results [] 0 s.

Definition get_issues (fuel : nat) (jql : string) (max_results : Z) (s : session)
  : option (result (list issue) * session) :=
  match _get_issues_v3_jql fuel jql max_results s with
  | None => None
  | Some (Ok issues, s') => Some (Ok issues, s')
  | Some (Raise _, s') => _get_issues_v3_search jql max_results s'
  end.

End Fetcher.

(** ** Metrics assembler *)

Section Assembler.
Context {F : Type} `{PyFloat F}.
Context {platform : Platform}.
Variable strptime : string -> string -> option datetime.
Variable fromisoformat : string -> option datetime.
Variable max_retries : Z.
Variable rem : remote.

(** One entry of [metrics]. *)
Record metric : Type := {
  metric_key : string;
  metric_summary : string;
  metric_status : string;
  metric_created : string;
  resolved : option string;
  metric_assignee : option string;
  metric_priority : option string;
  issue_type : option string;
  cycle_time_hours : F;
  cycle_time_days : num F;
  metric_status_periods : list (@period F)
}.

(** The body of [for issue in issues]. *)
Definition assemble (clk : clock) (statuses : gset string) (i : issue)
  : result metric :=
  let fields := issue_fields i in
  let* r := calculate_cycle_time strptime fromisoformat clk statuses i in
  let cycle_time := fst r in
  Ok {| metric_key := key i;
        metric_summary := summary fields;
        metric_status := status_name fields;
        metric_created := created fields;
        resolved := resolutiondate fields;
        metric_assignee := assignee fields;
        metric_priority := priority fields;
        issue_type := issuetype fields;
        cycle_time_hours := cycle_time;
        cycle_time_days :=
          if f_gt0 cycle_time then Float (f_div cycle_time 24) else Int 0;
        metric_status_periods := snd r |}.

(** The loop; [clocks k] is the reading of the system clock while the
    [k]-th issue is processed. *)
Fixpoint assemble_all (clocks : nat -> clock) (k : nat) (statuses : gset string)
    (issues : list issue) : result (list metric) :=
  match issues with
  | [] => Ok []
  | i :: issues' =>
      let* m := assemble (clocks k) statuses i in
      let* ms := assemble_all clocks (S k) statuses issues' in
      Ok (m :: ms)
  end.

Definition extract_metrics (fuel : nat) (clocks : nat -> clock)
    (statuses : gset string) (jql : string) (max_results : Z) (s : session)
  : option (result (list metric) * session) :=
  match get_issues max_retries rem fuel jql max_results s with
  | None => None
  | Some (Raise e, s') => Some (Raise e, s')
  | Some (Ok issues, s') => Some (assemble_all clocks 0 statuses issues, s')
  end.

End Assembler.

(** ** Instances used by the examples *)

(** *** Exact rational arithmetic as a [PyFloat] *)

Module QFloat.
Definition add (x y : Q) : Q := Qred (x + y).
Definition div (x : Q) (n : Z) : Q := Qred (x / inject_Z n).
Definition of_microseconds (us : Z) : Q := Qred (us # 1000000).
Definition gt0 (x : Q) : bool := negb (Qle_bool x 0).
Definition lt0 (x : Q) : bool := negb (Qle_bool 0 x).

#[export] Instance Q_float : PyFloat Q.
Proof.
  refine {| f_zero := 0%Q; f_add := add; f_div := div;
            total_seconds := of_microseconds;
            f_gt0 := gt0; f_lt0 := lt0; f_div_sign := _ |}.
  intros x n Hx Hn. unfold gt0, lt0, div in *.
  apply negb_true_iff in Hx. apply negb_false_iff.
  apply Qle_bool_iff. rewrite Qred_correct.
  assert (0 <= x)%Q as Hx'.
  { destruct (Qlt_le_dec x 0) as [Hlt | Hle]; [ | exact Hle ].
    apply Qlt_le_weak in Hlt. apply Qle_bool_iff in Hlt. congruence. }
  apply Qmult_le_0_compat; [ exact Hx' | ].
  apply Qinv_le_0_compat. unfold Qle. simpl. lia.
Defined.
End QFloat.
Export QFloat.

(** *** [strptime] on the layout the tracker emits

    [2024-03-05T10:00:00.000+0000]: four-digit year, two-digit month,
    day, hour, minute and second, three digits of fraction, a sign and a
    four-digit offset.  On such text [datetime.strptime] succeeds with
    the first format of [parse_datetime], with the value computed here;
    other text and other formats are rejected, so the remaining formats
    and the fallback of [parse_datetime] play no part in the examples. *)

Module Jira.

Definition digit (a : ascii) : option Z :=
  let n := Z.of_N (N_of_ascii a) - 48 in
  if (0 <=? n) && (n <=? 9) then Some n else None.

(** Read [n] decimal digits. *)
Fixpoint digits (n : nat) (acc : Z) (s : string) : option (Z * string) :=
  match n with
  | O => Some (acc, s)
  | S n' =>
      match s with
      | String a s' =>
          match digit a with
          | Some d => digits n' (10 * acc + d) s'
          | None => None
          end
      | EmptyString => None
      end
  end.

Definition expect (c : ascii) (s : string) : option string :=
  match s with
  | String a s' => if Ascii.eqb a c then Some s' else None
  | EmptyString => None
  end.

Definition sign (s : string) : option (Z * string) :=
  match s with
  | String "+" s' => Some (1, s')
  | String "-" s' => Some (-1, s')
  | _ => None
  end.

(** Days from 1970-01-01 to the given date of the proleptic Gregorian
    calendar. *)
Definition days_from_civil (y m d : Z) : Z :=
  let y := if m <=? 2 then y - 1 else y in
  let era := y / 400 in
  let yoe := y - era * 400 in
  let doy := (153 * (if 2 <? m then m - 3 else m + 9) + 2) / 5 + d - 1 in
  let doe := yoe * 365 + yoe / 4 - yoe / 100 + doy in
  era * 146097 + doe - 719468.

Definition is_leap (y : Z) : bool :=
  (y mod 4 =? 0) && (negb (y mod 100 =? 0) || (y mod 400 =? 0)).

Definition days_in_month (y m : Z) : Z :=
  if m =? 2 then (if is_leap y then 29 else 28)
  else if (m =? 4) || (m =? 6) || (m =? 9) || (m =? 11) then 30
  else 31.

Definition in_range (lo x hi : Z) : option unit :=
  if (lo <=? x) && (x <=? hi) then Some tt else None.

Definition parse (s : string) : option datetime :=
  '(y, s) ← digits 4 0 s; s ← expect "-" s;
  '(m, s) ← digits 2 0 s; s ← expect "-" s;
  '(d, s) ← digits 2 0 s; s ← expect "T" s;
  '(hh, s) ← digits 2 0 s; s ← expect ":" s;
  '(mm, s) ← digits 2 0 s; s ← expect ":" s;
  '(ss, s) ← digits 2 0 s; s ← expect "." s;
  '(ms, s) ← digits 3 0 s;
  '(sg, s) ← sign s;
  '(oh, s) ← digits 2 0 s;
  '(om, s) ← digits 2 0 s;
  _ ← in_range 1 y 9999; _ ← in_range 1 m 12; _ ← in_range 1 d (days_in_month y m);
  _ ← in_range 0 hh 23; _ ← in_range 0 mm 59; _ ← in_range 0 ss 59;
  _ ← in_range 0 oh 23; _ ← in_range 0 om 59;
  match s with
  | EmptyString =>
      Some {| wall := (((days_from_civil y m d * 24 + hh) * 60 + mm) * 60 + ss)
                      * 1000000 + ms * 1000;
              tzinfo := Some (sg * (oh * 60 + om) * 60 * 1000000) |}
  | _ => None
  end.

Definition strptime (date_str fmt : string) : option datetime :=
  if String.eqb fmt "%Y-%m-%dT%H:%M:%S.%f%z" then parse date_str else None.

Definition fromisoformat (date_str : string) : option datetime := None.

End Jira.

(** ** Vocabulary of the statements *)

Section Vocabulary.
Context {F : Type} `{PyFloat F}.
Variable strptime : string -> string -> option datetime.
Variable fromisoformat : string -> option datetime.

(** The durations of a period list added up from the left, starting
    at zero: the order in which the replay loop accumulates them. *)
Definition sum_hours (ps : list (@period F)) : F :=
  fold_left f_add (map duration_hours ps) f_zero.

(** Each element is not later than its successor. *)
Fixpoint nondecreasing (ds : list datetime) : bool :=
  match ds with
  | a :: (b :: _) as ds' => dt_leb a b && nondecreasing ds'
  | _ => true
  end.





(** What the assembler promises of the day count of one record. *)
Definition days_from_hours (m : @metric F) : Prop :=
  (f_gt0 (cycle_time_hours m) = true ->
   cycle_time_days m = Float (f_div (cycle_time_hours m) 24))
  /\ (f_gt0 (cycle_time_hours m) = false -> cycle_time_days m = Int 0)
  /\ num_lt0 (cycle_time_days m) = false.


End Vocabulary.

(** The session after [_rate_limit] and the request. *)
Definition after_send {B : Type} (respond : nat -> outcome B) (s : session) : session :=
  snd (send respond s).

(** Two keys that an order does not tell apart. *)
Definition same_key {A K : Type} (leb : K -> K -> bool) (key : A -> K)
    (k : K) (x : A) : bool :=
  leb (key x) k && leb k (key x).

(** ** Example data *)

Module Examples.

(** The statuses [__init__] installs. *)
Definition statuses : gset string :=
  {[ "Doing"; "Blocked"; "Review"; "In Progress"; "In Review" ]}.

Definition transition (from to : string) : item :=
  {| field := "status"; fromString := Some from; toString := Some to |}.

Definition an_issue (k status created_at : string) (resolved_at : option string)
    (hs : list history) : issue :=
  {| id := Some k;
     key := k;
     issue_fields :=
       {| summary := "Example";
          status_name := status;
          created := created_at;
          resolutiondate := resolved_at;
          assignee := None;
          priority := None;
          issuetype := Some "Task" |};
     histories := hs |}.

(** Backlog, Doing, Review, Done, one hour in each cycle status. *)
Definition finished : issue :=
  an_issue "EX-1" "Done" "2024-03-05T09:00:00.000+0000"
    (Some "2024-03-05T12:00:00.000+0000")
    [ {| h_created := "2024-03-05T10:00:00.000+0000";
         items := [transition "Backlog" "Doing"] |};
      {| h_created := "2024-03-05T11:00:00.000+0000";
         items := [transition "Doing" "Review"] |};
      {| h_created := "2024-03-05T12:00:00.000+0000";
         items := [transition "Review" "Done"] |} ].

(** Work in progress, not resolved. *)
Definition in_progress : issue :=
  an_issue "EX-2" "Doing" "2024-03-05T09:00:00.000+0000" None
    [ {| h_created := "2024-03-05T10:00:00.000+0000";
         items := [transition "Backlog" "Doing"] |} ].

(** Still in a cycle status, with a resolution date. *)
Definition resolved_in_cycle : issue :=
  an_issue "EX-3" "Doing" "2024-03-05T09:00:00.000+0000"
    (Some "2024-03-05T12:00:00.000+0000")
    [ {| h_created := "2024-03-05T10:00:00.000+0000";
         items := [transition "Backlog" "Doing"] |} ].

(** The changelog ends in a cycle status, the issue itself is Done. *)
Definition done_without_exit : issue :=
  an_issue "EX-4" "Done" "2024-03-05T09:00:00.000+0000"
    (Some "2024-03-05T12:00:00.000+0000")
    [ {| h_created := "2024-03-05T10:00:00.000+0000";
         items := [transition "Backlog" "Doing"] |} ].

(** In a cycle status, with a resolution date older than the last
    transition. *)
Definition stale_resolution : issue :=
  an_issue "EX-5" "Doing" "2024-03-05T08:00:00.000+0000"
    (Some "2024-03-05T09:00:00.000+0000")
    [ {| h_created := "2024-03-05T10:00:00.000+0000";
         items := [transition "Backlog" "Doing"] |} ].



(** Twenty minutes of work across the end of daylight saving time in
    New York: started 01:50 EDT (05:50 UTC), finished 01:10 EST
    (06:10 UTC), in the order the tracker recorded them. *)
Definition across_dst : issue :=
  an_issue "EX-6" "Done" "2024-11-01T09:00:00.000-0400"
    (Some "2024-11-03T01:10:00.000-0500")
    [ {| h_created := "2024-11-03T01:50:00.000-0400";
         items := [transition "To Do" "Doing"] |};
      {| h_created := "2024-11-03T01:10:00.000-0500";
         items := [transition "Doing" "Done"] |} ].

(** 2024-03-05 11:00 and 12:00 UTC, on a machine set to UTC. *)
Definition at_11 : clock := {| utc_now := 1709636400000000; local_offset := 0 |}.
Definition at_12 : clock := {| utc_now := 1709640000000000; local_offset := 0 |}.

(** [calculate_cycle_time] on rationals and on the tracker's layout. *)
Definition calculate (clk : clock) (i : issue) : result (Q * list (@period Q)) :=
  calculate_cycle_time Jira.strptime Jira.fromisoformat clk statuses i.

(** [time.sleep] of CPython 3.11 on Linux, [uptime] seconds after
    boot.  The length and the deadline on the monotonic clock are
    signed 64-bit counts of nanoseconds, 9223372036 seconds at most:
    [OverflowError] when the length does not fit, [OSError] when the
    deadline does not. *)
Definition uptime : Z := 16529.

Definition cpython_sleep (n : Z) : result unit :=
  if n <? -9223372036 then Raise OverflowError
  else if n <? 0 then Raise ValueError
  else if 9223372036 <? n then Raise OverflowError
  else if 9223372036 - uptime <? n then Raise OSError
  else Ok tt.

Definition cpython : Platform.
Proof.
  refine {| sleep := cpython_sleep |}; unfold cpython_sleep.
  - intros n Hn.
    destruct (n <? -9223372036); [ discriminate | ].
    destruct (n <? 0) eqn:Hneg; [ discriminate | lia ].
  - intros n Hn.
    destruct (n <? -9223372036) eqn:H1; [ lia | ].
    destruct (n <? 0) eqn:H2; [ lia | ].
    destruct (9223372036 <? n) eqn:H3; [ lia | ].
    destruct (9223372036 - uptime <? n) eqn:H4; [ unfold uptime in H4; lia | reflexivity ].
  - intros n e.
    destruct (n <? -9223372036); [ intros [= <-]; auto | ].
    destruct (n <? 0); [ intros [= <-]; auto | ].
    destruct (9223372036 <? n); [ intros [= <-]; auto | ].
    destruct (9223372036 - uptime <? n); [ intros [= <-]; auto | discriminate ].
Defined.

(** A client that has sent nothing yet. *)
Definition fresh : session := {| sent := 0; trace := [] |}.

(** An answer with the given status code and body, no [Retry-After]. *)
Definition answer {B : Type} (code : Z) (body : option B) : outcome B :=
  Replied {| status_code := code; retry_after_header := NoHeader; json := body |}.

(** A 429 that asks for a pause of [n] seconds. *)
Definition retry_after {B : Type} (n : Z) : outcome B :=
  Replied {| status_code := 429; retry_after_header := Seconds n; json := None |}.

(** A mocked remote: the answers of the list in turn, then [last]. *)
Definition script {B : Type} (answers : list (outcome B)) (last : outcome B)
  : nat -> outcome B :=
  fun n => nth n answers last.

(** A remote whose cursor endpoint and detail endpoint answer 404 and
    whose offset endpoint serves two issues in one page. *)
Definition cursor_unavailable : remote :=
  {| search_jql := fun _ _ _ _ => answer 404 None;
     search := fun _ _ start_at _ =>
       answer 200
         (Some {| page_issues :=
                    Some (if start_at =? 0 then [finished; stale_resolution] else []);
                  page_total := Some 2;
                  page_isLast := None;
                  page_nextPageToken := None |});
     issue_detail := fun _ _ => answer 404 None |}.

End Examples.

(** ** Vocabulary of the further properties *)

Definition is_RateLimit (e : event) : bool :=
  match e with RateLimit => true | _ => false end.

Definition is_Sleep429 (e : event) : bool :=
  match e with Sleep429 _ => true | _ => false end.

(** The number of [_rate_limit] calls and of pauses after a 429 in a
    trace. *)
Definition rate_limits_in (t : list event) : nat := length (List.filter is_RateLimit t).
Definition sleeps429_in (t : list event) : nat := length (List.filter is_Sleep429 t).

(** What one iteration of the retry loop decides once the remote has
    answered: leave with a result, or pause and go round again.
    [attempts_verdict] shows that the loop of [attempts] is this
    decision, iterated. *)
Definition verdict {platform : Platform} {B : Type} (max_retries attempt : Z)
    (o : outcome B) : result (response B) + event :=
  let last := attempt =? max_retries - 1 in
  let slept (e : event) (seconds : Z) : result (response B) + event :=
    match sleep seconds with
    | Ok _ => inr e
    | Raise ex => inl (Raise ex)
    end in
  match o with
  | Failed =>
      if last then inl (Raise ConnectionError) else slept (Backoff attempt) (2 ^ attempt)
  | Replied r =>
      let code := status_code r in
      if code =? 429 then
        match retry_after_header r with
        | NotAnInteger => inl (Raise ValueError)
        | Seconds n => slept (Sleep429 n) n
        | NoHeader => inr (Sleep429 60)
        end
      else if (400 <=? code) && (code <? 600) then
        if last then inl (Raise (HTTPError code)) else slept (Backoff attempt) (2 ^ attempt)
      else if 500 <=? code then slept (Backoff attempt) (2 ^ attempt)
      else inl (Ok r)
  end.

(** An exception that leaves the loop right after the answer [o] to
    attempt number [attempt], whatever attempts remain: [int] rejected
    the [Retry-After] of a 429, or [time.sleep] rejected the pause that
    follows the answer, which is the [Retry-After] of a 429 and the
    backoff after a failure or an error status. *)
Definition raised_by_pause {platform : Platform} {B : Type} (attempt : Z)
    (o : outcome B) (e : exn) : Prop :=
  (e = ValueError
   /\ exists x, o = Replied x /\ status_code x = 429
                /\ retry_after_header x = NotAnInteger)
  \/ (exists x n, o = Replied x /\ status_code x = 429
                  /\ retry_after_header x = Seconds n /\ sleep n = Raise e)
  \/ (sleep (2 ^ attempt) = Raise e
      /\ match o with
         | Failed => True
         | Replied x => 400 <= status_code x /\ status_code x <> 429
         end).

(** A trace of the executor is a run of blocks: [_rate_limit], the
    request, and possibly a pause. *)
Fixpoint paced (t : list event) : bool :=
  match t with
  | [] => true
  | RateLimit :: Request :: t' =>
      match t' with
      | Backoff _ :: t'' => paced t''
      | Sleep429 _ :: t'' => paced t''
      | _ => paced t'
      end
  | _ => false
  end.

(** The offset endpoint of [rem] serves the list [all]: a request for
    [m] entries from offset [a] is answered, below 400, with
    [all[a:a+m]] and the length of [all] as total. *)
Definition serves_list (rem : remote) (all : list issue) : Prop :=
  forall jql m a n, exists r data,
    search rem jql m a n = Replied r
    /\ status_code r < 400
    /\ json r = Some data
    /\ page_issues data = Some (firstn (Z.to_nat m) (skipn (Z.to_nat a) all))
    /\ page_total data = Some (len all).

(** A remote that serves [all] on the offset endpoint and has no
    cursor endpoint. *)
Definition list_server (all : list issue) : remote :=
  {| search_jql := fun _ _ _ _ => Failed;
     search := fun _ m a _ =>
       Replied {| status_code := 200;
                  retry_after_header := NoHeader;
                  json := Some {| page_issues :=
                                    Some (firstn (Z.to_nat m) (skipn (Z.to_nat a) all));
                                  page_total := Some (len all);
                                  page_isLast := None;
                                  page_nextPageToken := None |} |};
     issue_detail := fun _ _ => Failed |}.

(** The pages of both list endpoints of [rem] hold no more entries
    than the request allows, for the page sizes the fetcher asks for. *)
Definition honours_maxResults (rem : remote) : Prop :=
  (forall jql m a n r data,
      1 <= m <= 100 ->
      search rem jql m a n = Replied r -> json r = Some data ->
      len (default [] (page_issues data)) <= m)
  /\ (forall jql m tok n r data,
        1 <= m <= 100 ->
        search_jql rem jql m tok n = Replied r -> json r = Some data ->
        len (default [] (page_issues data)) <= m).

(** A remote whose detail endpoint answers every request with the
    issue [lookup] finds, and whose list endpoints are down. *)
Definition detail_server (lookup : string -> issue) : remote :=
  {| search_jql := fun _ _ _ _ => Failed;
     search := fun _ _ _ _ => Failed;
     issue_detail := fun issue_id _ =>
       Replied {| status_code := 200; retry_after_header := NoHeader;
                  json := Some (lookup issue_id) |} |}.

Section ReplayVocabulary.
Variable strptime : string -> string -> option datetime.
Variable fromisoformat : string -> option datetime.

Definition is_aware (d : datetime) : bool :=
  match tzinfo d with Some _ => true | None => false end.

(** The text parses, to an aware [datetime]. *)
Definition parses_aware (text : string) : bool :=
  match parse_datetime strptime fromisoformat text with
  | Ok d => is_aware d
  | Raise _ => false
  end.

(** Every timestamp of the issue parses to an aware [datetime]. *)
Definition well_timed (i : issue) : bool :=
  parses_aware (created (issue_fields i))
  && forallb (fun h => parses_aware (h_created h)) (histories i)
  && match truthy (resolutiondate (issue_fields i)) with
     | Some r => parses_aware r
     | None => true
     end.

(** No status item of the changelog leads into a cycle status. *)
Definition never_enters (statuses : gset string) (i : issue) : bool :=
  forallb (fun h =>
             forallb (fun it => negb (String.eqb (field it) "status")
                                || negb (in_statuses (toString it) statuses))
                     (items h))
          (histories i).

(** The status items of the changelog. *)
Definition status_items_of (i : issue) : list item :=
  flat_map (fun h => List.filter (fun it => String.eqb (field it) "status") (items h))
           (histories i).

(** Whenever the text of one timestamp sorts before the text of
    another, the first timestamp is not the later one. *)
Definition text_order_is_time_order (hs : list history) : bool :=
  forallb (fun a =>
             forallb (fun b =>
                        implb (String.leb (h_created a) (h_created b))
                              match parse_datetime strptime fromisoformat (h_created a),
                                    parse_datetime strptime fromisoformat (h_created b) with
                              | Ok da, Ok db => dt_leb da db
                              | _, _ => true
                              end)
                     hs)
          hs.

End ReplayVocabulary.

(** Further example issues. *)
Module MoreExamples.

(** The creation date is not a timestamp. *)
Definition unparsable : issue :=
  Examples.an_issue "EX-7" "Doing" "yesterday" None
    [ {| h_created := "2024-03-05T10:00:00.000+0000";
         items := [Examples.transition "Backlog" "Doing"] |} ].

(** Closed without work: a change of summary, then Backlog to Done. *)
Definition straight_to_done : issue :=
  Examples.an_issue "EX-8" "Done" "2024-03-05T09:00:00.000+0000"
    (Some "2024-03-05T11:00:00.000+0000")
    [ {| h_created := "2024-03-05T10:00:00.000+0000";
         items := [ {| field := "summary"; fromString := Some "Doing";
                       toString := Some "Doing it" |} ] |};
      {| h_created := "2024-03-05T11:00:00.000+0000";
         items := [Examples.transition "Backlog" "Done"] |} ].

(** Created in Doing: the first recorded change already leaves a cycle
    status for another. *)
Definition created_in_cycle : issue :=
  Examples.an_issue "EX-9" "Done" "2024-03-05T09:00:00.000+0000"
    (Some "2024-03-05T12:00:00.000+0000")
    [ {| h_created := "2024-03-05T10:00:00.000+0000";
         items := [Examples.transition "Doing" "Review"] |};
      {| h_created := "2024-03-05T12:00:00.000+0000";
         items := [Examples.transition "Review" "Done"] |} ].

End MoreExamples.

(** ** Other functions of the source *)

(** [s.rstrip(c)] for a one-character [c]: [s] without its trailing
    run of [c]. *)
Fixpoint rstrip (c : ascii) (s : string) : string :=
  match s with
  | EmptyString => EmptyString
  | String a s' =>
      match rstrip c s' with
      | EmptyString => if Ascii.eqb a c then EmptyString else String a EmptyString
      | r => String a r
      end
  end.

(** [self.base_url] as [__init__] sets it. *)
Definition base_url_of (base_url : string) : string := rstrip "/" base_url.

(** The URLs of the three endpoints: [f"{self.base_url}/rest/api/3/..."]. *)
Definition search_jql_url (base_url : string) : string :=
  String.append (base_url_of base_url) "/rest/api/3/search/jql".
Definition search_url (base_url : string) : string :=
  String.append (base_url_of base_url) "/rest/api/3/search".
Definition issue_url (base_url issue_id : string) : string :=
  String.append (base_url_of base_url) (String.append "/rest/api/3/issue/" issue_id).

(** [n] slashes. *)
Fixpoint slashes (n : nat) : string :=
  match n with
  | O => EmptyString
  | S n' => String "/" (slashes n')
  end.

(** The last character of the text is [c]. *)
Fixpoint ends_with (c : ascii) (s : string) : bool :=
  match s with
  | EmptyString => false
  | String a EmptyString => Ascii.eqb a c
  | String _ s' => ends_with c s'
  end.

(** *** [load_env_file] of [jira_metrics_easy.py]

    The file is the list of its lines as iteration over the file
    object yields them, or [None] when the path does not exist.  The
    text is ASCII: [str.strip()] then removes the characters 9 to 13,
    28 to 31 and 32 from both ends. *)
Module Env.

Definition is_space (a : ascii) : bool :=
  let n := N_of_ascii a in
  ((9 <=? n) && (n <=? 13) || (28 <=? n) && (n <=? 32))%N.



(** [s.lstrip()]. *)
Fixpoint lstrip (s : string) : string :=
  match s with
  | EmptyString => EmptyString
  | String a s' => if is_space a then lstrip s' else s
  end.

(** [s.rstrip()]. *)
Fixpoint rstrip (s : string) : string :=
  match s with
  | EmptyString => EmptyString
  | String a s' =>
      match rstrip s' with
      | EmptyString => if is_space a then EmptyString else String a EmptyString
      | r => String a r
      end
  end.

(** [s.strip()]. *)
Definition strip (s : string) : string := rstrip (lstrip s).

(** [s.startswith(c)] for a one-character [c]. *)
Definition startswith (c : ascii) (s : string) : bool :=
  match s with
  | String a _ => Ascii.eqb a c
  | EmptyString => false
  end.

(** The second part of [s.split(c, 1)] when [c] occurs in [s]: the
    text after the first [c]. *)
Fixpoint split_tail (c : ascii) (s : string) : string :=
  match s with
  | EmptyString => EmptyString
  | String a s' => if Ascii.eqb a c then s' else split_tail c s'
  end.

(** The body of the loop over the lines. *)
Definition load_line (env_vars : gmap string string) (line : string)
  : gmap string string :=
  let line := strip line in
  if negb (String.eqb line "") && negb (startswith "#" line) && contains "=" line then
    let key := split_head "=" line in
    let value := split_tail "=" line in
    <[ strip key := strip value ]> env_vars
  else env_vars.

Definition load_env_file (file : option (list string)) : gmap string string :=
  match file with
  | None => ∅
  | Some lines => fold_left load_line lines ∅
  end.

End Env.

(** *** [fromisoformat] on date, separator, time

    [2024-03-05 10:00:00], with any single character between the date
    and the time: [datetime.fromisoformat] reads such text as the naive
    [datetime] computed here.  Other text is rejected. *)
Module Iso.

Definition skip (s : string) : option string :=
  match s with
  | String _ s' => Some s'
  | EmptyString => None
  end.

Definition fromisoformat (date_str : string) : option datetime :=
  '(y, s) ← Jira.digits 4 0 date_str; s ← Jira.expect "-" s;
  '(m, s) ← Jira.digits 2 0 s; s ← Jira.expect "-" s;
  '(d, s) ← Jira.digits 2 0 s; s ← skip s;
  '(hh, s) ← Jira.digits 2 0 s; s ← Jira.expect ":" s;
  '(mm, s) ← Jira.digits 2 0 s; s ← Jira.expect ":" s;
  '(ss, s) ← Jira.digits 2 0 s;
  _ ← Jira.in_range 1 y 9999; _ ← Jira.in_range 1 m 12;
  _ ← Jira.in_range 1 d (Jira.days_in_month y m);
  _ ← Jira.in_range 0 hh 23; _ ← Jira.in_range 0 mm 59; _ ← Jira.in_range 0 ss 59;
  match s with
  | EmptyString =>
      Some {| wall := (((Jira.days_from_civil y m d * 24 + hh) * 60 + mm) * 60 + ss)
                      * 1000000;
              tzinfo := None |}
  | _ => None
  end.

End Iso.

(** The text is made of whitespace only. *)
Fixpoint all_space (s : string) : bool :=
  match s with
  | EmptyString => true
  | String a s' => Env.is_space a && all_space s'
  end.

(** A remote whose cursor endpoint serves the summaries in one last
    page and whose detail endpoint answers with the issue [lookup]
    finds; it has no offset endpoint. *)
Definition cursor_server (summaries : list issue) (lookup : string -> issue) : remote :=
  {| search_jql := fun _ m _ _ =>
       Replied {| status_code := 200; retry_after_header := NoHeader;
                  json := Some {| page_issues := Some (firstn (Z.to_nat m) summaries);
                                  page_total := None;
                                  page_isLast := Some true;
                                  page_nextPageToken := None |} |};
     search := fun _ _ _ _ => Failed;
     issue_detail := fun issue_id _ =>
       Replied {| status_code := 200; retry_after_header := NoHeader;
                  json := Some (lookup issue_id) |} |}.

(** A remote whose cursor endpoint answers every request with an
    empty page that is not the last and carries a token. *)
Definition empty_pages : remote :=
  {| search_jql := fun _ _ _ _ =>
       Replied {| status_code := 200; retry_after_header := NoHeader;
                  json := Some {| page_issues := Some [];
                                  page_total := None;
                                  page_isLast := Some false;
                                  page_nextPageToken := Some "next" |} |};
     search := fun _ _ _ _ => Failed;
     issue_detail := fun _ _ => Failed |}.

(** * Properties *)

(** ** The replay loop *)

Section ReplayFacts.
Context {F : Type} `{PyFloat F}.
Variable strptime : string -> string -> option datetime.
Variable fromisoformat : string -> option datetime.

Lemma bind_Ok {A B : Type} (r : result A) (k : A -> result B) (b : B) :
  (let* x := r in k x) = Ok b -> exists a, r = Ok a /\ k a = Ok b.
Proof. destruct r as [a | e]; simpl; [ eauto | discriminate ]. Qed.

Lemma sum_hours_snoc (ps : list (@period F)) (p : @period F) :
  sum_hours (ps ++ [p]) = f_add (sum_hours ps) (duration_hours p).
Proof. unfold sum_hours. rewrite map_app, fold_left_app. reflexivity. Qed.

(** What one iteration does, case by case. *)
Lemma step_cases (statuses : gset string) (c : status_change) (w w' : @walk F) :
  step statuses c w = Ok w' ->
  let opened :=
    if in_statuses (to_status c) statuses then Some (date c) else None in
  (exists fs cs td,
      from_status c = Some fs /\ fs ∈ statuses /\
      current_cycle_start w = Some cs /\ dt_sub (date c) cs = Ok td /\
      total_cycle_time w' = f_add (total_cycle_time w) (hours td) /\
      status_periods w' =
        status_periods w ++
        [{| status := fs; start := cs; end_ := date c; duration_hours := hours td |}] /\
      current_cycle_start w' = opened)
  \/ ((in_statuses (from_status c) statuses = false \/ current_cycle_start w = None) /\
      total_cycle_time w' = total_cycle_time w /\
      status_periods w' = status_periods w /\
      current_cycle_start w' =
        match opened with Some d => Some d | None => current_cycle_start w end).
Proof.
  unfold step. intros Hstep. apply bind_Ok in Hstep as (w1 & Hclose & Hopen).
  destruct (from_status c) as [fs | ] eqn:Hfrom; simpl.
  - destruct (current_cycle_start w) as [cs | ] eqn:Hcs.
    + destruct (bool_decide (fs ∈ statuses)) eqn:Hin.
      * apply bind_Ok in Hclose as (td & Hsub & Hw1).
        injection Hw1 as <-. left. exists fs, cs, td.
        apply bool_decide_eq_true in Hin.
        destruct (in_statuses (to_status c) statuses);
          injection Hopen as <-; simpl; auto 10.
      * injection Hclose as <-. right.
        destruct (in_statuses (to_status c) statuses);
          injection Hopen as <-; simpl; auto.
    + injection Hclose as <-. right.
      destruct (in_statuses (to_status c) statuses);
        injection Hopen as <-; simpl; auto.
  - assert (w1 = w) as -> by (destruct (current_cycle_start w); congruence).
    right.
    destruct (in_statuses (to_status c) statuses);
      injection Hopen as <-; simpl; auto.
Qed.

Lemma step_sum (statuses : gset string) (c : status_change) (w w' : @walk F) :
  step statuses c w = Ok w' ->
  total_cycle_time w = sum_hours (status_periods w) ->
  total_cycle_time w' = sum_hours (status_periods w').
Proof.
  intros Hstep Hw. apply step_cases in Hstep.
  destruct Hstep as [(fs & cs & td & _ & _ & _ & _ & Ht & Hp & _) | (_ & Ht & Hp & _)].
  - rewrite Ht, Hp, sum_hours_snoc, Hw. reflexivity.
  - rewrite Ht, Hp. exact Hw.
Qed.

Lemma replay_sum (statuses : gset string) (cs : list status_change) :
  forall w w' : @walk F,
    replay statuses cs w = Ok w' ->
    total_cycle_time w = sum_hours (status_periods w) ->
    total_cycle_time w' = sum_hours (status_periods w').
Proof.
  induction cs as [ | c cs IH]; simpl; intros w w' Hrun Hw.
  - injection Hrun as <-. exact Hw.
  - apply bind_Ok in Hrun as (w1 & Hstep & Hrest).
    eapply IH; [ exact Hrest | ]. eapply step_sum; eauto.
Qed.

(** What the block after the loop does, case by case. *)
Lemma finish_cases (clk : clock) (statuses : gset string) (i : issue) (w : @walk F)
    (t : F) (ps : list (@period F)) :
  finish strptime fromisoformat clk statuses i w = Ok (t, ps) ->
  (exists cs e td,
      current_cycle_start w = Some cs /\
      status_name (issue_fields i) ∈ statuses /\
      closing_date strptime fromisoformat clk i cs = Ok e /\
      dt_sub e cs = Ok td /\
      t = f_add (total_cycle_time w) (hours td) /\
      ps = status_periods w ++
           [{| status := status_name (issue_fields i); start := cs; end_ := e;
               duration_hours := hours td |}])
  \/ ((current_cycle_start w = None \/ status_name (issue_fields i) ∉ statuses) /\
      t = total_cycle_time w /\ ps = status_periods w).
Proof.
  unfold finish. intros Hfin.
  destruct (current_cycle_start w) as [cs | ] eqn:Hcs.
  - destruct (bool_decide (status_name (issue_fields i) ∈ statuses)) eqn:Hin.
    + apply bool_decide_eq_true in Hin.
      apply bind_Ok in Hfin as (e & He & Hfin).
      apply bind_Ok in Hfin as (td & Htd & Hfin).
      injection Hfin as <- <-. left. exists cs, e, td. auto 10.
    + apply bool_decide_eq_false in Hin.
      injection Hfin as <- <-. right. auto.
  - injection Hfin as <- <-. right. auto.
Qed.

(** The loop only appends to the list of periods. *)
Lemma replay_appends (statuses : gset string) (cs : list status_change) :
  forall w w' : @walk F,
    replay statuses cs w = Ok w' ->
    exists more, status_periods w' = status_periods w ++ more.
Proof.
  induction cs as [ | c cs IH]; simpl; intros w w' Hrun.
  - injection Hrun as <-. exists []. rewrite app_nil_r. reflexivity.
  - apply bind_Ok in Hrun as (w1 & Hstep & Hrest).
    apply IH in Hrest as (more & ->). apply step_cases in Hstep.
    destruct Hstep as [(fs & cs0 & td & _ & _ & _ & _ & _ & -> & _) | (_ & _ & -> & _)].
    + rewrite <- app_assoc. eauto.
    + eauto.
Qed.


(** The loop starts with nothing accumulated. *)
Lemma replay_issue_sum (statuses : gset string) (i : issue) (w : @walk F) :
  replay_issue strptime fromisoformat statuses i = Ok w ->
  total_cycle_time w = sum_hours (status_periods w).
Proof.
  unfold replay_issue. intros Hrun.
  apply bind_Ok in Hrun as (created_date & _ & Hrun).
  apply bind_Ok in Hrun as (changes & _ & Hrun).
  eapply replay_sum; [ exact Hrun | reflexivity ].
Qed.

(** C6.  Whenever [calculate_cycle_time] returns, the durations of the
    returned periods, added up in list order from zero, give exactly
    the returned total: the two are the same chain of additions,
    whatever the float addition rounds to. *)
Theorem total_is_sum_of_periods
    (clk : clock) (statuses : gset string) (i : issue) (t : F) (ps : list (@period F)) :
  calculate_cycle_time strptime fromisoformat clk statuses i = Ok (t, ps) ->
  sum_hours ps = t.
Proof.
  unfold calculate_cycle_time. intros Hcalc.
  destruct (histories i) as [ | h hs] eqn:Hh.
  - injection Hcalc as <- <-. reflexivity.
  - apply bind_Ok in Hcalc as (w & Hw & Hfin).
    apply replay_issue_sum in Hw.
    apply finish_cases in Hfin.
    destruct Hfin as [(cs & e & td & _ & _ & _ & _ & -> & ->) | (_ & -> & ->)].
    + rewrite sum_hours_snoc, Hw. reflexivity.
    + symmetry. exact Hw.
Qed.

End ReplayFacts.

(** The finished example: two periods of one hour, two hours in all. *)
Lemma total_is_sum_of_periods_witness :
  exists t ps,
    Examples.calculate Examples.at_12 Examples.finished = Ok (t, ps) /\
    sum_hours ps = t.
Proof.
  eexists. eexists. split.
  - vm_compute. reflexivity.
  - apply (total_is_sum_of_periods Jira.strptime Jira.fromisoformat
             Examples.at_12 Examples.statuses Examples.finished).
    vm_compute. reflexivity.
Defined.

Section ReplayClaims.
Context {F : Type} `{PyFloat F}.
Variable strptime : string -> string -> option datetime.
Variable fromisoformat : string -> option datetime.


(** C3, as the code has it.  When the replay leaves a period open and
    the issue's current status is a cycle status, [calculate_cycle_time]
    appends one last period, from the open start to the resolution date
    when the issue has one and to the clock's reading otherwise, and
    adds its duration to the total. *)
Theorem final_period_when_still_in_cycle
    (clk : clock) (statuses : gset string) (i : issue) (w : @walk F)
    (cs e : datetime) (td : Z) :
  histories i <> [] ->
  replay_issue strptime fromisoformat statuses i = Ok w ->
  current_cycle_start w = Some cs ->
  status_name (issue_fields i) ∈ statuses ->
  closing_date strptime fromisoformat clk i cs = Ok e ->
  dt_sub e cs = Ok td ->
  calculate_cycle_time strptime fromisoformat clk statuses i =
    Ok (f_add (total_cycle_time w) (hours td),
        status_periods w ++
        [{| status := status_name (issue_fields i); start := cs; end_ := e;
            duration_hours := hours td |}])
  /\ match truthy (resolutiondate (issue_fields i)) with
     | Some r => parse_datetime strptime fromisoformat r = Ok e
     | None => e = now clk (tzinfo cs)
     end.
Proof.
  intros Hh Hw Hcs Hin He Htd. split.
  - unfold calculate_cycle_time.
    destruct (histories i) as [ | h hs]; [ congruence | ].
    rewrite Hw. simpl. unfold finish. rewrite Hcs.
    rewrite bool_decide_eq_true_2 by assumption.
    rewrite He. simpl. rewrite Htd. simpl. reflexivity.
  - unfold closing_date in He.
    destruct (truthy (resolutiondate (issue_fields i))); congruence.
Qed.


End ReplayClaims.

(** ** Order of the period bounds *)



Section TimelineFacts.
Context {F : Type} `{PyFloat F}.
Variable strptime : string -> string -> option datetime.
Variable fromisoformat : string -> option datetime.
Variable clk : clock.
Variable statuses : gset string.
Variable i : issue.






End TimelineFacts.

Section PeriodInvariant.
Context {F : Type} `{PyFloat F}.
Variable strptime : string -> string -> option datetime.
Variable fromisoformat : string -> option datetime.


End PeriodInvariant.

(** ** The theorems on the examples *)

(** Membership in a concrete status set, by evaluation. *)
Ltac in_statuses_by_compute := apply (bool_decide_unpack _); vm_compute; exact I.



(** An issue still in Doing, resolved at 12:00: the last period runs
    from 10:00 to the resolution date, not to the clock's 11:00. *)
Lemma final_period_when_still_in_cycle_witness :
  let d10 := {| wall := 1709632800000000; tzinfo := Some 0 |} in
  let d12 := {| wall := 1709640000000000; tzinfo := Some 0 |} in
  Examples.calculate Examples.at_11 Examples.resolved_in_cycle =
    Ok (2%Q, [{| status := "Doing"; start := d10; end_ := d12; duration_hours := 2%Q |}]).
Proof.
  intros d10 d12.
  refine (eq_trans
    (proj1 (final_period_when_still_in_cycle Jira.strptime Jira.fromisoformat
              Examples.at_11 Examples.statuses Examples.resolved_in_cycle
              {| total_cycle_time := 0%Q; status_periods := [];
                 current_cycle_start := Some d10 |}
              d10 d12 7200000000 _ _ _ _ _ _)) _).
  - discriminate.
  - vm_compute. reflexivity.
  - reflexivity.
  - in_statuses_by_compute.
  - vm_compute. reflexivity.
  - reflexivity.
  - vm_compute. reflexivity.
Defined.

(** C3, as stated, fails: the replay of this issue leaves a period open
    since 10:00 and the issue has a resolution date, yet no period is
    emitted and nothing is added, because the issue's current status,
    Done, is not a cycle status. *)
Lemma final_period_counterexample :
  (exists w cs,
      replay_issue (F:=Q) Jira.strptime Jira.fromisoformat Examples.statuses
        Examples.done_without_exit = Ok w /\
      current_cycle_start w = Some cs)
  /\ Examples.calculate Examples.at_12 Examples.done_without_exit = Ok (0%Q, []).
Proof.
  split.
  - eexists. eexists. split; [ vm_compute; reflexivity | reflexivity ].
  - vm_compute. reflexivity.
Qed.





(** ** The order of the replay *)

Lemma string_leb_trans (s1 s2 s3 : string) :
  String.leb s1 s2 = true -> String.leb s2 s3 = true -> String.leb s1 s3 = true.
Proof.
  unfold String.leb. revert s2 s3.
  induction s1 as [ | a s1 IH]; intros [ | b s2] [ | c s3]; simpl;
    try reflexivity; try discriminate.
  unfold Ascii.compare.
  destruct (N.compare_spec (N_of_ascii a) (N_of_ascii b)) as [Hab | Hab | Hab];
    destruct (N.compare_spec (N_of_ascii b) (N_of_ascii c)) as [Hbc | Hbc | Hbc];
    destruct (N.compare_spec (N_of_ascii a) (N_of_ascii c)) as [Hac | Hac | Hac];
    try reflexivity; try discriminate; try lia.
  apply IH.
Qed.

Section SortedFacts.
Context {A K : Type} (leb : K -> K -> bool) (key : A -> K).
Hypothesis leb_total : forall a b, leb a b = true \/ leb b a = true.
Hypothesis leb_trans : forall a b c, leb a b = true -> leb b c = true -> leb a c = true.

Lemma insert_perm (x : A) (l : list A) : Permutation (insert leb key x l) (x :: l).
Proof.
  induction l as [ | y l IH]; simpl.
  - reflexivity.
  - destruct (leb (key x) (key y)).
    + reflexivity.
    + rewrite IH. apply perm_swap.
Qed.

Lemma sorted_perm (l : list A) : Permutation (sorted leb key l) l.
Proof.
  induction l as [ | x l IH]; simpl.
  - reflexivity.
  - rewrite insert_perm. constructor. exact IH.
Qed.

Lemma insert_sorted (x : A) (l : list A) :
  Sorted (fun x y => leb (key x) (key y) = true) l ->
  Sorted (fun x y => leb (key x) (key y) = true) (insert leb key x l).
Proof.
  induction l as [ | y l IH]; simpl; intros Hl.
  - repeat constructor.
  - destruct (leb (key x) (key y)) eqn:Hxy.
    + constructor; [ exact Hl | constructor; exact Hxy ].
    + inversion Hl as [ | ? ? Hl' Hhd]; subst.
      constructor; [ apply IH; exact Hl' | ].
      assert (leb (key y) (key x) = true) as Hyx
        by (destruct (leb_total (key x) (key y)); congruence).
      destruct l as [ | z l]; simpl.
      * constructor. exact Hyx.
      * destruct (leb (key x) (key z)); constructor; [ exact Hyx | ].
        inversion Hhd; assumption.
Qed.

Lemma sorted_sorted (l : list A) :
  Sorted (fun x y => leb (key x) (key y) = true) (sorted leb key l).
Proof.
  induction l as [ | x l IH]; simpl.
  - constructor.
  - apply insert_sorted. exact IH.
Qed.

Lemma insert_stable (k : K) (x : A) (l : list A) :
  List.filter (same_key leb key k) (insert leb key x l) = List.filter (same_key leb key k) (x :: l).
Proof.
  induction l as [ | y l IH]; simpl.
  - reflexivity.
  - destruct (leb (key x) (key y)) eqn:Hxy; simpl.
    + reflexivity.
    + simpl in IH. rewrite IH.
      destruct (same_key leb key k x) eqn:Hx; [ | reflexivity ].
      destruct (same_key leb key k y) eqn:Hy; [ | reflexivity ].
      unfold same_key in Hx, Hy.
      apply andb_true_iff in Hx as [Hxk _].
      apply andb_true_iff in Hy as [_ Hky].
      rewrite (leb_trans _ _ _ Hxk Hky) in Hxy. discriminate.
Qed.

(** Elements with the same key keep their relative order. *)
Lemma sorted_stable (k : K) (l : list A) :
  List.filter (same_key leb key k) (sorted leb key l) = List.filter (same_key leb key k) l.
Proof.
  induction l as [ | x l IH]; simpl.
  - reflexivity.
  - rewrite insert_stable. simpl. rewrite IH. reflexivity.
Qed.

End SortedFacts.

(** X19.  The histories are replayed in the order of the text of their
    timestamps, entries with the same text in the order received. *)
Lemma sorted_histories_spec (hs : list history) :
  Permutation (sorted_histories hs) hs
  /\ Sorted (fun a b => String.leb (h_created a) (h_created b) = true)
            (sorted_histories hs)
  /\ forall text,
       List.filter (fun h => String.eqb (h_created h) text) (sorted_histories hs) =
       List.filter (fun h => String.eqb (h_created h) text) hs.
Proof.
  unfold sorted_histories. split; [ apply sorted_perm | ].
  split; [ apply sorted_sorted; apply String.leb_total | ].
  intros text.
  assert (forall l : list history,
            List.filter (fun h => String.eqb (h_created h) text) l =
            List.filter (same_key String.leb h_created text) l) as Hsame.
  { intros l. apply filter_ext. intros h. unfold same_key.
    destruct (String.eqb_spec (h_created h) text) as [-> | Hne].
    - assert (String.leb text text = true) as ->
        by (destruct (String.leb_total text text); assumption).
      reflexivity.
    - destruct (String.leb (h_created h) text) eqn:H1; [ | reflexivity ].
      destruct (String.leb text (h_created h)) eqn:H2; [ | reflexivity ].
      exfalso. apply Hne. apply String.leb_antisym; assumption. }
  rewrite !Hsame. apply sorted_stable. exact string_leb_trans.
Qed.

(** C1 at the input on which the code misses it.  Work started at
    05:50 UTC and ended at 06:10 UTC, the clocks going back in between.
    The text ["...T01:10:00.000-0500"] sorts before
    ["...T01:50:00.000-0400"], so the end of the work is replayed before
    its start: the list of events is not in timestamp order, and the
    twenty minutes in Doing are lost. *)
Lemma replay_order_across_dst :
  exists finish_work start_work,
    collect Jira.strptime Jira.fromisoformat
      (sorted_histories (histories Examples.across_dst)) =
      Ok [finish_work; start_work]
    /\ from_status finish_work = Some "Doing"
    /\ to_status start_work = Some "Doing"
    /\ dt_sub (date finish_work) (date start_work) = Ok 1200000000
    /\ dt_leb (date finish_work) (date start_work) = false
    /\ Examples.calculate Examples.at_12 Examples.across_dst = Ok (0%Q, []).
Proof.
  eexists. eexists. split; [ vm_compute; reflexivity | ].
  repeat split; vm_compute; reflexivity.
Qed.

(** ** The request executor *)

Section ExecutorFacts.
Context {platform : Platform}.
Variable max_retries : Z.
Context {B : Type}.
Variable respond : nat -> outcome B.

(** A 5xx answer before the last attempt: back off, try again. *)
Lemma attempt_server_error (k : nat) (attempt : Z) (s : session) (r : response B) :
  respond (sent s) = Replied r ->
  500 <= status_code r ->
  attempt <> max_retries - 1 ->
  sleep (2 ^ attempt) = Ok tt ->
  attempts max_retries respond (S k) attempt s =
  attempts max_retries respond k (attempt + 1) (log (Backoff attempt) (after_send respond s)).
Proof.
  intros Hr Hcode Hnot Hsleep. unfold after_send. simpl. rewrite Hr.
  destruct (status_code r =? 429) eqn:H429; [ lia | ].
  destruct (500 <=? status_code r) eqn:H500; [ | lia ].
  destruct (attempt =? max_retries - 1) eqn:Hlast; [ lia | ].
  unfold pause. rewrite Hsleep. reflexivity.
Qed.

(** A 5xx answer on the last attempt: the error of [raise_for_status]
    is caught and raised again. *)
Lemma attempt_last_server_error (k : nat) (attempt : Z) (s : session) (r : response B) :
  respond (sent s) = Replied r ->
  500 <= status_code r < 600 ->
  attempt = max_retries - 1 ->
  attempts max_retries respond (S k) attempt s =
  (Raise (HTTPError (status_code r)), after_send respond s).
Proof.
  intros Hr Hcode Hlast. unfold after_send. simpl. rewrite Hr.
  destruct (status_code r =? 429) eqn:H429; [ lia | ].
  destruct (500 <=? status_code r) eqn:H500; [ | lia ].
  destruct (attempt =? max_retries - 1) eqn:Hl; [ | lia ].
  unfold raise_for_status.
  destruct ((400 <=? status_code r) && (status_code r <? 600)) eqn:Herr.
  - unfold handle. simpl. rewrite Hl. reflexivity.
  - apply andb_false_iff in Herr. lia.
Qed.

(** An answer below 400 is returned. *)
Lemma attempt_success (k : nat) (attempt : Z) (s : session) (r : response B) :
  respond (sent s) = Replied r ->
  status_code r < 400 ->
  attempts max_retries respond (S k) attempt s = (Ok r, after_send respond s).
Proof.
  intros Hr Hcode. unfold after_send. simpl. rewrite Hr.
  destruct (status_code r =? 429) eqn:H429; [ lia | ].
  destruct (500 <=? status_code r) eqn:H500; [ lia | ].
  unfold raise_for_status.
  destruct ((400 <=? status_code r) && (status_code r <? 600)) eqn:Herr.
  - apply andb_true_iff in Herr. lia.
  - reflexivity.
Qed.

(** A 4xx answer other than 429, before the last attempt: the
    [HTTPError] of [raise_for_status] is a [RequestException], the
    [except] clause catches it, and the request is sent again. *)
Lemma attempt_client_error (k : nat) (attempt : Z) (s : session) (r : response B) :
  respond (sent s) = Replied r ->
  400 <= status_code r < 500 ->
  status_code r <> 429 ->
  attempt <> max_retries - 1 ->
  sleep (2 ^ attempt) = Ok tt ->
  attempts max_retries respond (S k) attempt s =
  attempts max_retries respond k (attempt + 1) (log (Backoff attempt) (after_send respond s)).
Proof.
  intros Hr Hcode Hnot429 Hnot Hsleep. unfold after_send. simpl. rewrite Hr.
  destruct (status_code r =? 429) eqn:H429; [ lia | ].
  destruct (500 <=? status_code r) eqn:H500; [ lia | ].
  unfold raise_for_status.
  destruct ((400 <=? status_code r) && (status_code r <? 600)) eqn:Herr.
  - unfold handle. simpl.
    destruct (attempt =? max_retries - 1) eqn:Hlast; [ lia | ].
    rewrite Hsleep. reflexivity.
  - apply andb_false_iff in Herr. lia.
Qed.

(** A 4xx answer other than 429 on the last attempt: the [HTTPError]
    is caught and raised again. *)
Lemma attempt_last_client_error (k : nat) (attempt : Z) (s : session) (r : response B) :
  respond (sent s) = Replied r ->
  400 <= status_code r < 500 ->
  status_code r <> 429 ->
  attempt = max_retries - 1 ->
  attempts max_retries respond (S k) attempt s =
  (Raise (HTTPError (status_code r)), after_send respond s).
Proof.
  intros Hr Hcode Hnot429 Hlast. unfold after_send. simpl. rewrite Hr.
  destruct (status_code r =? 429) eqn:H429; [ lia | ].
  destruct (500 <=? status_code r) eqn:H500; [ lia | ].
  unfold raise_for_status.
  destruct ((400 <=? status_code r) && (status_code r <? 600)) eqn:Herr.
  - unfold handle. simpl.
    destruct (attempt =? max_retries - 1) eqn:Hl; [ reflexivity | lia ].
  - apply andb_false_iff in Herr. lia.
Qed.

End ExecutorFacts.

(** C7.  With [max_retries = 5]: when the next three answers are 500,
    500 and 200, the executor sends three requests, sleeps two backoffs
    (after attempts 0 and 1) and returns the third response; when the
    next five answers are 500, it sends five requests, no more, sleeps
    four backoffs and raises the [HTTPError] of the last answer. *)
Theorem retry_on_server_errors {platform : Platform} {B : Type}
    (respond : nat -> outcome B) (s : session) :
  (forall r0 r1 r2 : response B,
      respond (sent s) = Replied r0 -> status_code r0 = 500 ->
      respond (S (sent s)) = Replied r1 -> status_code r1 = 500 ->
      respond (S (S (sent s))) = Replied r2 -> status_code r2 = 200 ->
      _make_request_with_retry 5 respond s =
      (Ok r2,
       {| sent := 3 + sent s;
          trace := trace s ++
                   [RateLimit; Request; Backoff 0;
                    RateLimit; Request; Backoff 1;
                    RateLimit; Request] |}))
  /\ ((forall k, (k < 5)%nat ->
         exists r, respond (k + sent s)%nat = Replied r /\ status_code r = 500) ->
      _make_request_with_retry 5 respond s =
      (Raise (HTTPError 500),
       {| sent := 5 + sent s;
          trace := trace s ++
                   [RateLimit; Request; Backoff 0;
                    RateLimit; Request; Backoff 1;
                    RateLimit; Request; Backoff 2;
                    RateLimit; Request; Backoff 3;
                    RateLimit; Request] |})).
Proof.
  unfold _make_request_with_retry. change (Z.to_nat 5) with 5%nat. split.
  - intros r0 r1 r2 H0 C0 H1 C1 H2 C2.
    rewrite (attempt_server_error 5 respond _ _ _ r0)
      by first [ exact H0 | lia | apply sleep_minute; lia ].
    rewrite (attempt_server_error 5 respond _ _ _ r1)
      by first [ exact H1 | lia | apply sleep_minute; lia ].
    rewrite (attempt_success 5 respond _ _ _ r2) by first [ exact H2 | lia ].
    unfold after_send, log. simpl. rewrite <- !app_assoc. reflexivity.
  - intros Hall.
    destruct (Hall 0%nat ltac:(lia)) as (r0 & H0 & C0).
    destruct (Hall 1%nat ltac:(lia)) as (r1 & H1 & C1).
    destruct (Hall 2%nat ltac:(lia)) as (r2 & H2 & C2).
    destruct (Hall 3%nat ltac:(lia)) as (r3 & H3 & C3).
    destruct (Hall 4%nat ltac:(lia)) as (r4 & H4 & C4).
    simpl in H0, H1, H2, H3, H4.
    rewrite (attempt_server_error 5 respond _ _ _ r0)
      by first [ exact H0 | lia | apply sleep_minute; lia ].
    rewrite (attempt_server_error 5 respond _ _ _ r1)
      by first [ exact H1 | lia | apply sleep_minute; lia ].
    rewrite (attempt_server_error 5 respond _ _ _ r2)
      by first [ exact H2 | lia | apply sleep_minute; lia ].
    rewrite (attempt_server_error 5 respond _ _ _ r3)
      by first [ exact H3 | lia | apply sleep_minute; lia ].
    rewrite (attempt_last_server_error 5 respond _ _ _ r4) by first [ exact H4 | lia ].
    rewrite C4. unfold after_send, log. simpl. rewrite <- !app_assoc. reflexivity.
Qed.

(** The two mocked sequences. *)
Lemma retry_on_server_errors_witness :
  let ok := {| status_code := 200; retry_after_header := NoHeader; json := Some "body" |} in
  (exists s',
      _make_request_with_retry (platform := Examples.cpython) 5
        (Examples.script [Examples.answer 500 None; Examples.answer 500 None] (Replied ok))
        Examples.fresh = (Ok ok, s')
      /\ attempts_in (trace s') = 3%nat /\ backoffs_in (trace s') = 2%nat)
  /\ (exists s',
        _make_request_with_retry (platform := Examples.cpython) 5
          (Examples.script [] (Examples.answer 500 (@None string))) Examples.fresh =
        (Raise (HTTPError 500), s')
        /\ attempts_in (trace s') = 5%nat /\ backoffs_in (trace s') = 4%nat).
Proof.
  intros ok. split.
  - eexists. split.
    + apply (proj1 (retry_on_server_errors (platform := Examples.cpython)
                      (Examples.script [Examples.answer 500 None; Examples.answer 500 None]
                         (Replied ok)) Examples.fresh)
               {| status_code := 500; retry_after_header := NoHeader; json := None |}
               {| status_code := 500; retry_after_header := NoHeader; json := None |}
               ok); reflexivity.
    + split; reflexivity.
  - eexists. split.
    + apply (proj2 (retry_on_server_errors (platform := Examples.cpython)
                      (Examples.script [] (Examples.answer 500 (@None string)))
                      Examples.fresh)).
      intros k Hk. eexists.
      split; [ unfold Examples.script; destruct k; reflexivity | reflexivity ].
    + split; reflexivity.
Defined.

(** C2 at the input on which the code misses it.  A remote that answers
    404 to everything is asked five times, with four backoff sleeps in
    between, before the error reaches the caller; and when the second
    answer is 200 the caller never sees the 404. *)
Lemma client_error_is_retried {platform : Platform} :
  (exists s',
      _make_request_with_retry 5
        (Examples.script [] (Examples.answer 404 (@None string))) Examples.fresh =
      (Raise (HTTPError 404), s')
      /\ attempts_in (trace s') = 5%nat /\ backoffs_in (trace s') = 4%nat)
  /\ (exists r s',
        _make_request_with_retry 5
          (Examples.script [Examples.answer 404 None] (Examples.answer 200 (Some "body")))
          Examples.fresh = (Ok r, s')
        /\ status_code r = 200
        /\ attempts_in (trace s') = 2%nat /\ backoffs_in (trace s') = 1%nat).
Proof.
  unfold _make_request_with_retry. change (Z.to_nat 5) with 5%nat.
  pose (r404 := {| status_code := 404; retry_after_header := NoHeader;
                   json := @None string |}).
  split.
  - rewrite (attempt_client_error 5 _ _ _ _ r404)
      by first [ reflexivity | apply sleep_minute; lia | simpl; lia ].
    rewrite (attempt_client_error 5 _ _ _ _ r404)
      by first [ reflexivity | apply sleep_minute; lia | simpl; lia ].
    rewrite (attempt_client_error 5 _ _ _ _ r404)
      by first [ reflexivity | apply sleep_minute; lia | simpl; lia ].
    rewrite (attempt_client_error 5 _ _ _ _ r404)
      by first [ reflexivity | apply sleep_minute; lia | simpl; lia ].
    rewrite (attempt_last_client_error 5 _ _ _ _ r404)
      by first [ reflexivity | simpl; lia ].
    eexists. split; [ reflexivity | split; reflexivity ].
  - rewrite (attempt_client_error 5 _ _ _ _ r404)
      by first [ reflexivity | apply sleep_minute; lia | simpl; lia ].
    rewrite (attempt_success 5 _ _ _ _
               {| status_code := 200; retry_after_header := NoHeader;
                  json := Some "body" |})
      by first [ reflexivity | simpl; lia ].
    eexists. eexists. split; [ reflexivity | repeat split ].
Qed.

(** ** The fetcher *)

Section PositionIndependence.
Context {platform : Platform}.
Variable max_retries : Z.
Context {B : Type}.
Variable respond : nat -> outcome B.

(** The answer does not depend on how many requests came before. *)
Hypothesis same_answer : forall n n', respond n = respond n'.

Lemma attempts_same_result (k : nat) :
  forall (attempt : Z) (s1 s2 : session),
    fst (attempts max_retries respond k attempt s1) =
    fst (attempts max_retries respond k attempt s2).
Proof.
  induction k as [ | k IH]; intros attempt s1 s2; simpl; [ reflexivity | ].
  rewrite (same_answer (sent s1) (sent s2)).
  unfold pause, handle.
  repeat match goal with
         | |- context [match ?x with _ => _ end] =>
             lazymatch x with
             | attempts max_retries respond _ _ _ _ _ => fail
             | _ => destruct x
             end
         end;
    simpl; try reflexivity; apply IH.
Qed.

Lemma request_same_result (s1 s2 : session) :
  fst (_make_request_with_retry max_retries respond s1) =
  fst (_make_request_with_retry max_retries respond s2).
Proof. apply attempts_same_result. Qed.

End PositionIndependence.

Section FetcherFacts.
Context {platform : Platform}.
Variable max_retries : Z.
Variable rem : remote.

Lemma len_app {A : Type} (l1 l2 : list A) : len (l1 ++ l2) = len l1 + len l2.
Proof. unfold len. rewrite length_app. lia. Qed.

(** The offset loop returns: every iteration that goes on has received
    at least one issue. *)
Lemma search_loop_returns (jql : string) (max_results : Z) (fuel : nat) :
  forall (issues : list issue) (start_at : Z) (s : session),
    (Z.to_nat (max_results - len issues) <= fuel)%nat ->
    exists r, search_loop max_retries rem fuel jql max_results issues start_at s = Some r.
Proof.
  induction fuel as [ | fuel IH]; intros issues start_at s Hfuel; simpl.
  - destruct (len issues <? max_results) eqn:Hlt; [ lia | eauto ].
  - destruct (len issues <? max_results) eqn:Hlt; [ | eauto ].
    destruct (_make_request_with_retry max_retries _ s) as [[r | e] s1]; [ | eauto ].
    destruct (json r) as [data | ]; [ | eauto ].
    destruct ((len (default [] (page_issues data)) =? 0)
              || (default 0 (page_total data) <=?
                  len (issues ++ default [] (page_issues data)))) eqn:Hstop;
      [ eauto | ].
    apply IH. apply orb_false_iff in Hstop as [Hgot _].
    rewrite len_app. unfold len in *. lia.
Qed.

(** With an offset endpoint that answers by the request alone, the
    issues the offset loop returns do not depend on what the client did
    before. *)
Lemma search_loop_same_result (jql : string) (max_results : Z) (fuel : nat) :
  (forall q m a n n', search rem q m a n = search rem q m a n') ->
  forall (issues : list issue) (start_at : Z) (s1 s2 : session),
    option_map fst (search_loop max_retries rem fuel jql max_results issues start_at s1) =
    option_map fst (search_loop max_retries rem fuel jql max_results issues start_at s2).
Proof.
  intros Hsame.
  induction fuel as [ | fuel IH]; intros issues start_at s1 s2; simpl.
  - destruct (len issues <? max_results); reflexivity.
  - destruct (len issues <? max_results); [ | reflexivity ].
    pose proof (request_same_result max_retries
                  (search rem jql (Z.min (max_results - len issues) 100) start_at)
                  (Hsame _ _ _) s1 s2) as Hreq.
    destruct (_make_request_with_retry max_retries _ s1) as [r1 t1].
    destruct (_make_request_with_retry max_retries _ s2) as [r2 t2].
    simpl in Hreq. subst r2.
    destruct r1 as [r | e]; [ | reflexivity ].
    destruct (json r) as [data | ]; [ | reflexivity ].
    destruct ((len (default [] (page_issues data)) =? 0)
              || (default 0 (page_total data) <=?
                  len (issues ++ default [] (page_issues data))));
      [ reflexivity | apply IH ].
Qed.

(** C8.  When the cursor strategy raises, whatever the exception and
    however far it got, [get_issues] is the offset strategy run by the
    same client: it starts from an empty list at offset 0, it returns,
    and nothing the cursor strategy fetched enters the result.  When the
    offset endpoint answers by the request alone, that result is the
    one the offset strategy gives on its own, without the failed
    attempt before it. *)
Theorem fallback_is_offset_strategy
    (fuel : nat) (jql : string) (max_results : Z) (s s' : session) (e : exn) :
  _get_issues_v3_jql max_retries rem fuel jql max_results s = Some (Raise e, s') ->
  get_issues max_retries rem fuel jql max_results s =
    search_loop max_retries rem (Z.to_nat max_results) jql max_results [] 0 s'
  /\ (exists r, get_issues max_retries rem fuel jql max_results s = Some r)
  /\ ((forall q m a n n', search rem q m a n = search rem q m a n') ->
      option_map fst (get_issues max_retries rem fuel jql max_results s) =
      option_map fst (_get_issues_v3_search max_retries rem jql max_results s)).
Proof.
  intros Hjql.
  assert (get_issues max_retries rem fuel jql max_results s =
          search_loop max_retries rem (Z.to_nat max_results) jql max_results [] 0 s') as Hget.
  { unfold get_issues. rewrite Hjql. reflexivity. }
  split; [ exact Hget | ]. split.
  - rewrite Hget. apply search_loop_returns. unfold len. simpl. lia.
  - intros Hsame. rewrite Hget. unfold _get_issues_v3_search.
    apply search_loop_same_result. exact Hsame.
Qed.

End FetcherFacts.

(** The cursor endpoint answers 404: five attempts, then the offset
    strategy serves its two issues. *)
Lemma fallback_is_offset_strategy_witness :
  exists e s' s'',
    _get_issues_v3_jql (platform := Examples.cpython)
      5 Examples.cursor_unavailable 1 "project = EX" 100 Examples.fresh =
      Some (Raise e, s')
    /\ get_issues (platform := Examples.cpython)
        5 Examples.cursor_unavailable 1 "project = EX" 100 Examples.fresh =
       Some (Ok [Examples.finished; Examples.stale_resolution], s'')
    /\ option_map fst
         (_get_issues_v3_search (platform := Examples.cpython)
           5 Examples.cursor_unavailable "project = EX" 100
            Examples.fresh) =
       Some (Ok [Examples.finished; Examples.stale_resolution]).
Proof.
  eexists. eexists. eexists.
  split; [ vm_compute; reflexivity | ].
  destruct (fallback_is_offset_strategy (platform := Examples.cpython) 5 Examples.cursor_unavailable
              1 "project = EX" 100 Examples.fresh _ _
              ltac:(vm_compute; reflexivity)) as (Hget & _ & Hsame).
  split.
  - rewrite Hget. vm_compute. reflexivity.
  - rewrite <- Hsame by reflexivity. rewrite Hget. vm_compute. reflexivity.
Defined.

(** ** The assembler *)

Section AssemblerFacts.
Context {platform : Platform}.
Context {F : Type} `{PyFloat F}.
Variable strptime : string -> string -> option datetime.
Variable fromisoformat : string -> option datetime.

Lemma assemble_days (clk : clock) (statuses : gset string) (i : issue) (m : @metric F) :
  assemble strptime fromisoformat clk statuses i = Ok m -> days_from_hours m.
Proof.
  unfold assemble. intros Hm. apply bind_Ok in Hm as (r & _ & Hm).
  injection Hm as <-. unfold days_from_hours. simpl.
  destruct (f_gt0 (fst r)) eqn:Hpos.
  - split; [ reflexivity | ]. split; [ discriminate | ].
    simpl. apply f_div_sign; [ exact Hpos | lia ].
  - split; [ discriminate | ]. split; reflexivity.
Qed.

Lemma assemble_all_days (clocks : nat -> clock) (statuses : gset string)
    (issues : list issue) :
  forall (k : nat) (ms : list (@metric F)),
    assemble_all strptime fromisoformat clocks k statuses issues = Ok ms ->
    Forall days_from_hours ms.
Proof.
  induction issues as [ | i issues IH]; simpl; intros k ms Hms.
  - injection Hms as <-. constructor.
  - apply bind_Ok in Hms as (m & Hm & Hms).
    apply bind_Ok in Hms as (ms' & Hms' & Hms).
    injection Hms as <-.
    constructor; [ eapply assemble_days; exact Hm | eapply IH; exact Hms' ].
Qed.

(** C10.  In every record [extract_metrics] returns,
    [cycle_time_days] is [cycle_time_hours / 24] when
    [cycle_time_hours > 0] and the integer 0 otherwise, and it is never
    negative. *)
Theorem cycle_time_days_from_hours
    (max_retries : Z) (rem : remote) (fuel : nat) (clocks : nat -> clock)
    (statuses : gset string) (jql : string) (max_results : Z)
    (s s' : session) (ms : list (@metric F)) :
  extract_metrics strptime fromisoformat max_retries rem fuel clocks statuses
    jql max_results s = Some (Ok ms, s') ->
  Forall (fun m =>
            (f_gt0 (cycle_time_hours m) = true ->
             cycle_time_days m = Float (f_div (cycle_time_hours m) 24))
            /\ (f_gt0 (cycle_time_hours m) = false -> cycle_time_days m = Int 0)
            /\ num_lt0 (cycle_time_days m) = false) ms.
Proof.
  unfold extract_metrics. intros Hrun.
  destruct (get_issues max_retries rem fuel jql max_results s)
    as [[[issues | e] s1] | ]; [ | discriminate | discriminate ].
  injection Hrun as Hms _.
  exact (assemble_all_days clocks statuses issues 0%nat ms Hms).
Qed.

End AssemblerFacts.

(** Two records: two hours in cycle give a twelfth of a day; minus one
    hour gives the integer 0. *)
Lemma cycle_time_days_from_hours_witness :
  exists ms s',
    extract_metrics (F:=Q) (platform := Examples.cpython) Jira.strptime Jira.fromisoformat 5
      Examples.cursor_unavailable 1 (fun _ => Examples.at_12) Examples.statuses
      "project = EX" 100 Examples.fresh = Some (Ok ms, s')
    /\ map cycle_time_hours ms = [2%Q; (-1)%Q]
    /\ map cycle_time_days ms = [Float (1 # 12)%Q; Int 0]
    /\ Forall (fun m => num_lt0 (cycle_time_days m) = false) ms.
Proof.
  eexists. eexists. split; [ vm_compute; reflexivity | ].
  split; [ reflexivity | ]. split; [ reflexivity | ].
  eapply Forall_impl.
  - eapply (cycle_time_days_from_hours (platform := Examples.cpython)
      Jira.strptime Jira.fromisoformat 5
              Examples.cursor_unavailable 1 (fun _ => Examples.at_12) Examples.statuses
              "project = EX" 100 Examples.fresh).
    vm_compute. reflexivity.
  - intros m (_ & _ & Hsign). exact Hsign.
Defined.


(** * Further properties *)

(** ** The request executor, for any remote *)

Section ExecutorInvariants.
Context {platform : Platform}.
Variable max_retries : Z.
Context {B : Type}.
Variable respond : nat -> outcome B.

(** What [time.sleep] raises is no [RequestException]: the [except]
    clause lets it pass. *)
Lemma sleep_not_caught (n : Z) (e : exn) :
  sleep n = Raise e -> is_RequestException e = false.
Proof. intros Hs. apply sleep_raises in Hs as [-> | [-> | ->]]; reflexivity. Qed.

(** One iteration of the loop is the verdict on the answer received. *)
Lemma attempts_verdict (k : nat) (attempt : Z) (s : session) :
  attempts max_retries respond (S k) attempt s =
  match verdict max_retries attempt (respond (sent s)) with
  | inl r => (r, after_send respond s)
  | inr e => attempts max_retries respond k (attempt + 1) (log e (after_send respond s))
  end.
Proof.
  unfold after_send, verdict. simpl.
  destruct (respond (sent s)) as [ | r]; unfold pause, handle; simpl.
  - destruct (attempt =? max_retries - 1); [ reflexivity | ].
    destruct (sleep (2 ^ attempt)) as [[] | e]; reflexivity.
  - destruct (status_code r =? 429) eqn:H429.
    + destruct (retry_after_header r) as [ | n | ]; [ | | reflexivity ].
      * rewrite sleep_minute by lia. reflexivity.
      * destruct (sleep n) as [[] | e] eqn:Hs; [ reflexivity | ].
        rewrite (sleep_not_caught _ _ Hs). reflexivity.
    + unfold raise_for_status.
      destruct (500 <=? status_code r) eqn:H500;
        destruct ((400 <=? status_code r) && (status_code r <? 600)) eqn:Herr;
        destruct (attempt =? max_retries - 1) eqn:Hlast; simpl;
        rewrite ?Hlast; try reflexivity;
        destruct (sleep (2 ^ attempt)) as [[] | e] eqn:Hs; try reflexivity;
        rewrite (sleep_not_caught _ _ Hs); reflexivity.
Qed.

(** A pause is neither a request nor a call of [_rate_limit]. *)
Lemma verdict_pause (attempt : Z) (o : outcome B) (e : event) :
  verdict max_retries attempt o = inr e ->
  e = Backoff attempt \/ exists n, e = Sleep429 n.
Proof.
  unfold verdict. intros Hv.
  repeat match type of Hv with
         | context [match ?x with _ => _ end] => destruct x eqn:?
         | context [if ?b then _ else _] => destruct b eqn:?
         end;
    inversion Hv; subst; eauto.
Qed.

(** What a result of one iteration says about the answer received. *)
Lemma verdict_result (attempt : Z) (o : outcome B) (r : result (response B)) :
  verdict max_retries attempt o = inl r ->
  match r with
  | Ok x => o = Replied x /\ status_code x < 400
  | Raise e =>
      (attempt = max_retries - 1
       /\ match e with
          | HTTPError c =>
              400 <= c < 600 /\ c <> 429 /\ exists x, o = Replied x /\ status_code x = c
          | ConnectionError => o = Failed
          | _ => False
          end)
      \/ raised_by_pause attempt o e
  end.
Proof.
  unfold verdict, raised_by_pause. intros Hv.
  destruct o as [ | x].
  - destruct (attempt =? max_retries - 1) eqn:Hlast.
    + injection Hv as <-. left. split; [ lia | reflexivity ].
    + destruct (sleep (2 ^ attempt)) as [[] | ex] eqn:Hs; [ discriminate | ].
      injection Hv as <-. right. right. right. auto.
  - destruct (status_code x =? 429) eqn:H429.
    + apply Z.eqb_eq in H429.
      destruct (retry_after_header x) as [ | n | ] eqn:Hhdr; [ discriminate | | ].
      * destruct (sleep n) as [[] | ex] eqn:Hs; [ discriminate | ].
        injection Hv as <-. right. right. left. exists x, n. auto.
      * injection Hv as <-. right. left. split; [ reflexivity | ]. exists x. auto.
    + apply Z.eqb_neq in H429.
      destruct ((400 <=? status_code x) && (status_code x <? 600)) eqn:Herr.
      * apply andb_true_iff in Herr as [Hlo Hhi].
        destruct (attempt =? max_retries - 1) eqn:Hlast.
        -- injection Hv as <-. left. split; [ lia | ].
           split; [ lia | ]. split; [ exact H429 | ]. exists x. auto.
        -- destruct (sleep (2 ^ attempt)) as [[] | ex] eqn:Hs; [ discriminate | ].
           injection Hv as <-. right. right. right.
           split; [ reflexivity | ]. split; [ lia | exact H429 ].
      * destruct (500 <=? status_code x) eqn:H500.
        -- destruct (sleep (2 ^ attempt)) as [[] | ex] eqn:Hs; [ discriminate | ].
           injection Hv as <-. right. right. right.
           split; [ reflexivity | ]. split; [ lia | exact H429 ].
        -- injection Hv as <-. split; [ reflexivity | ].
           apply andb_false_iff in Herr. lia.
Qed.

Lemma count_app (f : event -> bool) (t1 t2 : list event) :
  length (List.filter f (t1 ++ t2)) =
  (length (List.filter f t1) + length (List.filter f t2))%nat.
Proof. rewrite List.filter_app, length_app. reflexivity. Qed.

(** The run of the loop from any iteration on.  [attempt] iterations
    are behind, [k] are left. *)
Lemma attempts_run (k : nat) :
  forall (attempt : Z) (s s' : session) (r : result (response B)),
    attempt + Z.of_nat k = max_retries ->
    attempts max_retries respond k attempt s = (r, s') ->
    exists t,
      trace s' = trace s ++ t
      /\ sent s' = (sent s + attempts_in t)%nat
      /\ (attempts_in t <= k)%nat
      /\ paced t = true
      /\ match r with
         | Ok x =>
             (0 < attempts_in t)%nat
             /\ respond (sent s' - 1)%nat = Replied x /\ status_code x < 400
         | Raise e =>
             (attempts_in t = k
              /\ match e with
                 | HTTPError c =>
                     400 <= c < 600 /\ c <> 429
                     /\ exists x, respond (sent s' - 1)%nat = Replied x /\ status_code x = c
                 | ConnectionError => respond (sent s' - 1)%nat = Failed
                 | PlainException => True
                 | _ => False
                 end)
             \/ ((0 < attempts_in t)%nat
                 /\ raised_by_pause (attempt + Z.of_nat (attempts_in t) - 1)
                      (respond (sent s' - 1)%nat) e)
         end.
Proof.
  induction k as [ | k IH]; intros attempt s s' r Hleft Hrun.
  - simpl in Hrun. injection Hrun as <- <-.
    exists []. rewrite app_nil_r. simpl. repeat split; auto; lia.
  - rewrite attempts_verdict in Hrun.
    destruct (verdict max_retries attempt (respond (sent s))) as [r0 | e] eqn:Hv.
    + injection Hrun as <- <-.
      exists [RateLimit; Request]. unfold after_send, attempts_in. simpl.
      replace (sent s - 0)%nat with (sent s) by lia.
      replace (attempt + Z.of_nat 1 - 1) with attempt by lia.
      split; [ reflexivity | ]. split; [ lia | ].
      split; [ lia | ]. split; [ reflexivity | ].
      apply verdict_result in Hv.
      destruct r0 as [x | ex].
      * destruct Hv as [-> Hx]. auto with zarith.
      * destruct Hv as [(Hlast & Hex) | Hpause].
        -- left. split; [ f_equal; lia | ].
           destruct ex; try contradiction; exact Hex.
        -- right. split; [ lia | exact Hpause ].
    + apply IH in Hrun; [ | lia ].
      destruct Hrun as (t & Ht & Hsent & Hle & Hpaced & Hr).
      exists ([RateLimit; Request; e] ++ t).
      unfold after_send, log in Ht, Hsent. simpl in Ht, Hsent.
      assert (attempts_in ([RateLimit; Request; e] ++ t) = S (attempts_in t)) as Hcount.
      { unfold attempts_in. rewrite count_app.
        apply verdict_pause in Hv as [-> | (n & ->)]; reflexivity. }
      rewrite Hcount.
      split; [ rewrite Ht, <- !app_assoc; reflexivity | ].
      split; [ lia | ]. split; [ lia | ].
      split.
      { apply verdict_pause in Hv as [-> | (n & ->)]; exact Hpaced. }
      destruct r as [x | ex].
      * destruct Hr as (Hpos & Hx). split; [ lia | exact Hx ].
      * destruct Hr as [(Hk & Hex) | (Hpos & Hpause)].
        -- left. split; [ lia | exact Hex ].
        -- right. split; [ lia | ].
           replace (attempt + Z.of_nat (S (attempts_in t)) - 1)
             with (attempt + 1 + Z.of_nat (attempts_in t) - 1) by lia.
           exact Hpause.
Qed.

(** The same for a whole call. *)
Lemma request_run (s s' : session) (r : result (response B)) :
  _make_request_with_retry max_retries respond s = (r, s') ->
  exists t,
    trace s' = trace s ++ t
    /\ sent s' = (sent s + attempts_in t)%nat
    /\ (attempts_in t <= Z.to_nat max_retries)%nat
    /\ paced t = true
    /\ match r with
       | Ok x =>
           (0 < attempts_in t)%nat
           /\ respond (sent s' - 1)%nat = Replied x /\ status_code x < 400
       | Raise e =>
           (attempts_in t = Z.to_nat max_retries
            /\ match e with
               | HTTPError c =>
                   400 <= c < 600 /\ c <> 429
                   /\ exists x, respond (sent s' - 1)%nat = Replied x /\ status_code x = c
               | ConnectionError => respond (sent s' - 1)%nat = Failed
               | PlainException => True
               | _ => False
               end)
           \/ ((0 < attempts_in t)%nat
               /\ raised_by_pause (Z.of_nat (attempts_in t) - 1)
                    (respond (sent s' - 1)%nat) e)
       end.
Proof.
  unfold _make_request_with_retry. intros Hrun.
  destruct (Z.le_gt_cases 0 max_retries) as [Hpos | Hneg].
  - apply (attempts_run (Z.to_nat max_retries) 0 s s' r); [ lia | exact Hrun ].
  - replace (Z.to_nat max_retries) with 0%nat in * by lia.
    simpl in Hrun. injection Hrun as <- <-.
    exists []. rewrite app_nil_r. simpl. repeat split; auto; lia.
Qed.

(** X1.  A response the executor returns has a status code below 400,
    and it is the answer to the last request the call sent. *)
Theorem returned_response_is_below_400 (s s' : session) (r : response B) :
  _make_request_with_retry max_retries respond s = (Ok r, s') ->
  status_code r < 400
  /\ (sent s < sent s')%nat
  /\ respond (sent s' - 1)%nat = Replied r.
Proof.
  intros Hrun. apply request_run in Hrun.
  destruct Hrun as (t & _ & Hsent & _ & _ & Hpos & Hlast & Hcode).
  split; [ exact Hcode | ]. split; [ lia | exact Hlast ].
Qed.

(** X2.  Whatever the remote does, one call sends at most
    [max_retries] requests, each right after a call of [_rate_limit],
    and only appends to the trace. *)
Theorem requests_bounded_and_paced (s : session) :
  let s' := snd (_make_request_with_retry max_retries respond s) in
  exists t,
    trace s' = trace s ++ t
    /\ sent s' = (sent s + attempts_in t)%nat
    /\ (attempts_in t <= Z.to_nat max_retries)%nat
    /\ paced t = true.
Proof.
  destruct (_make_request_with_retry max_retries respond s) as [r s'] eqn:Hrun.
  simpl. apply request_run in Hrun.
  destruct Hrun as (t & Ht & Hsent & Hle & Hpaced & _).
  exists t. auto.
Qed.

(** X3.  The exceptions of a call.  An [HTTPError], a
    [ConnectionError] and the final plain [Exception] reach the caller
    only when all [max_retries] requests have been sent; the
    [HTTPError] carries the 4xx or 5xx code of the last answer, never
    429.  A [ValueError], an [OverflowError] and an [OSError] leave the
    call right after the request whose answer led to them, however
    many attempts remain: [int] rejected the [Retry-After] of a 429,
    or [time.sleep] rejected the pause that follows the answer, be it
    the [Retry-After] of a 429 or the backoff after a failure.
    Nothing else is raised. *)
Theorem errors_surface_after_all_attempts (s s' : session) (e : exn) :
  _make_request_with_retry max_retries respond s = (Raise e, s') ->
  match e with
  | HTTPError c =>
      sent s' = (sent s + Z.to_nat max_retries)%nat /\ 400 <= c < 600 /\ c <> 429
      /\ exists x, respond (sent s' - 1)%nat = Replied x /\ status_code x = c
  | ConnectionError =>
      sent s' = (sent s + Z.to_nat max_retries)%nat
      /\ respond (sent s' - 1)%nat = Failed
  | PlainException => sent s' = (sent s + Z.to_nat max_retries)%nat
  | ValueError | OverflowError | OSError =>
      (sent s < sent s')%nat
      /\ raised_by_pause (Z.of_nat (sent s' - sent s) - 1) (respond (sent s' - 1)%nat) e
  | _ => False
  end.
Proof.
  intros Hrun. apply request_run in Hrun.
  destruct Hrun as (t & _ & Hsent & _ & _ & [(Hk & He) | (Hpos & Hpause)]).
  - destruct e; try contradiction.
    + destruct He as (Hc & Hn & Hx). split; [ lia | ]. split; [ exact Hc | ].
      split; [ exact Hn | exact Hx ].
    + split; [ lia | exact He ].
    + lia.
  - replace (Z.of_nat (sent s' - sent s) - 1) with (Z.of_nat (attempts_in t) - 1) by lia.
    assert (e = ValueError \/ e = OverflowError \/ e = OSError) as Hkind.
    { destruct Hpause as [(-> & _) | [(x & n & _ & _ & _ & Hs) | (Hs & _)]];
        [ auto | apply sleep_raises in Hs; exact Hs | apply sleep_raises in Hs; exact Hs ]. }
    destruct Hkind as [-> | [-> | ->]]; (split; [ lia | exact Hpause ]).
Qed.

(** The loop against a transport that keeps failing. *)
Lemma attempts_all_failed (k : nat) :
  forall (attempt : Z) (s : session),
    attempt + Z.of_nat (S k) = max_retries ->
    (forall a, attempt <= a < max_retries - 1 -> sleep (2 ^ a) = Ok tt) ->
    (forall n, (sent s <= n)%nat -> respond n = Failed) ->
    exists s' t,
      attempts max_retries respond (S k) attempt s = (Raise ConnectionError, s')
      /\ trace s' = trace s ++ t
      /\ attempts_in t = S k /\ backoffs_in t = k /\ sleeps429_in t = 0%nat.
Proof.
  induction k as [ | k IH]; intros attempt s Hleft Hsleep Hfail;
    rewrite attempts_verdict, (Hfail (sent s)) by lia; unfold verdict.
  - destruct (attempt =? max_retries - 1) eqn:Hlast; [ | lia ].
    eexists. exists [RateLimit; Request]. unfold after_send. simpl. auto.
  - destruct (attempt =? max_retries - 1) eqn:Hlast; [ lia | ].
    rewrite Hsleep by lia.
    destruct (IH (attempt + 1) (log (Backoff attempt) (after_send respond s)))
      as (s' & t & Hrun & Ht & Ha & Hb & Hs).
    { lia. }
    { intros a Ha. apply Hsleep. lia. }
    { intros n Hn. apply Hfail. simpl in Hn. lia. }
    exists s', ([RateLimit; Request; Backoff attempt] ++ t).
    split; [ exact Hrun | ].
    split; [ rewrite Ht; unfold after_send; simpl; rewrite <- !app_assoc; reflexivity | ].
    unfold attempts_in, backoffs_in, sleeps429_in in *.
    rewrite !count_app, Ha, Hb, Hs. simpl. auto.
Qed.

(** X4.  When the transport fails on every request and [time.sleep]
    accepts the backoffs, a call with [max_retries >= 1] sends exactly
    [max_retries] requests with [max_retries - 1] backoff sleeps
    between them and raises the transport's exception.  Every platform
    accepts the backoffs of up to seven attempts, the five of
    [__init__] among them: the longest is of 32 seconds. *)
Theorem persistent_network_failure (s : session) :
  0 < max_retries ->
  max_retries <= 7 \/ (forall a, 0 <= a < max_retries - 1 -> sleep (2 ^ a) = Ok tt) ->
  (forall n, (sent s <= n)%nat -> respond n = Failed) ->
  exists s' t,
    _make_request_with_retry max_retries respond s = (Raise ConnectionError, s')
    /\ trace s' = trace s ++ t
    /\ attempts_in t = Z.to_nat max_retries
    /\ backoffs_in t = (Z.to_nat max_retries - 1)%nat
    /\ sleeps429_in t = 0%nat.
Proof.
  intros Hpos Hbackoffs Hfail. unfold _make_request_with_retry.
  assert (forall a, 0 <= a < max_retries - 1 -> sleep (2 ^ a) = Ok tt) as Hsleep.
  { destruct Hbackoffs as [Hfew | Hsleep]; [ | exact Hsleep ].
    intros a Ha. apply sleep_minute.
    assert (a = 0 \/ a = 1 \/ a = 2 \/ a = 3 \/ a = 4 \/ a = 5)
      as [-> | [-> | [-> | [-> | [-> | ->]]]]] by lia; simpl; lia. }
  destruct (Z.to_nat max_retries) as [ | k] eqn:Hk; [ lia | ].
  destruct (attempts_all_failed k 0 s ltac:(lia) Hsleep Hfail)
    as (s' & t & Hrun & Ht & Ha & Hb & Hs).
  exists s', t. replace (S k - 1)%nat with k by lia. auto.
Qed.

(** The loop against a remote that keeps answering 429. *)
Lemma attempts_all_429 (k : nat) :
  forall (attempt : Z) (s : session),
    (forall n, (sent s <= n)%nat ->
       exists r, respond n = Replied r /\ status_code r = 429
                 /\ match retry_after_header r with
                    | NoHeader => True
                    | Seconds m => sleep m = Ok tt
                    | NotAnInteger => False
                    end) ->
    exists s' t,
      attempts max_retries respond k attempt s = (Raise PlainException, s')
      /\ trace s' = trace s ++ t
      /\ attempts_in t = k /\ sleeps429_in t = k /\ backoffs_in t = 0%nat.
Proof.
  induction k as [ | k IH]; intros attempt s Hall.
  - exists s, []. rewrite app_nil_r. simpl. auto.
  - rewrite attempts_verdict.
    destruct (Hall (sent s) ltac:(lia)) as (r & Hr & Hcode & Hhdr).
    assert (exists m, verdict max_retries attempt (respond (sent s)) = inr (Sleep429 m))
      as (m & ->).
    { rewrite Hr. unfold verdict. rewrite Hcode. simpl.
      destruct (retry_after_header r) as [ | m | ]; [ eauto | | contradiction ].
      rewrite Hhdr. eauto. }
    destruct (IH (attempt + 1) (log (Sleep429 m) (after_send respond s)))
      as (s' & t & Hrun & Ht & Ha & Hs & Hb).
    { intros n Hn. apply Hall. simpl in Hn. lia. }
    exists s', ([RateLimit; Request; Sleep429 m] ++ t).
    split; [ exact Hrun | ].
    split; [ rewrite Ht; unfold after_send; simpl; rewrite <- !app_assoc; reflexivity | ].
    unfold attempts_in, backoffs_in, sleeps429_in in *.
    rewrite !count_app, Ha, Hb, Hs. simpl. auto.
Qed.

(** X5.  When every answer is a 429 whose [Retry-After] is absent or a
    number of seconds that [time.sleep] accepts, a call sends
    [max_retries] requests, pauses after each of them, the last one
    included, never backs off, and ends in the plain [Exception] that
    follows the loop, not in an [HTTPError]. *)
Theorem persistent_rate_limiting (s : session) :
  (forall n, (sent s <= n)%nat ->
     exists r, respond n = Replied r /\ status_code r = 429
               /\ match retry_after_header r with
                  | NoHeader => True
                  | Seconds m => sleep m = Ok tt
                  | NotAnInteger => False
                  end) ->
  exists s' t,
    _make_request_with_retry max_retries respond s = (Raise PlainException, s')
    /\ trace s' = trace s ++ t
    /\ attempts_in t = Z.to_nat max_retries
    /\ sleeps429_in t = Z.to_nat max_retries
    /\ backoffs_in t = 0%nat.
Proof.
  intros Hall. unfold _make_request_with_retry.
  apply attempts_all_429. exact Hall.
Qed.

(** X27.  A 429 whose [Retry-After] is a number of seconds that
    [time.sleep] rejects, negative or too long for the platform, ends
    the call at once: the exception of [time.sleep] reaches the caller
    after that one request, no pause is made and no attempt that
    remains is used. *)
Theorem rejected_retry_after_ends_the_call
    (s : session) (r : response B) (n : Z) (e : exn) :
  0 < max_retries ->
  respond (sent s) = Replied r ->
  status_code r = 429 ->
  retry_after_header r = Seconds n ->
  sleep n = Raise e ->
  _make_request_with_retry max_retries respond s =
  (Raise e, {| sent := S (sent s); trace := trace s ++ [RateLimit; Request] |}).
Proof.
  intros Hpos Hr Hcode Hhdr Hs. unfold _make_request_with_retry.
  destruct (Z.to_nat max_retries) as [ | k] eqn:Hk; [ lia | ].
  rewrite attempts_verdict, Hr. unfold verdict. rewrite Hcode, Hhdr, Hs.
  reflexivity.
Qed.

End ExecutorInvariants.

(** Two 500s, then a 200 with a body. *)
Lemma returned_response_is_below_400_witness :
  exists r s',
    _make_request_with_retry (platform := Examples.cpython) 5
      (Examples.script [Examples.answer 500 None; Examples.answer 500 None]
         (Examples.answer 200 (Some "body"))) Examples.fresh = (Ok r, s')
    /\ status_code r < 400 /\ sent s' = 3%nat.
Proof.
  eexists. eexists. split; [ vm_compute; reflexivity | ].
  split; [ | reflexivity ].
  eapply (returned_response_is_below_400 (platform := Examples.cpython) 5
            (Examples.script [Examples.answer 500 None; Examples.answer 500 None]
               (Examples.answer 200 (Some "body"))) Examples.fresh).
  vm_compute. reflexivity.
Defined.

(** A remote that answers 503 to everything; one whose 429 asks for a
    pause of ten thousand million seconds; and a dead transport with
    forty attempts allowed, where the backoff of 2 ** 34 seconds after
    the thirty-fifth request is more than [time.sleep] accepts. *)
Lemma errors_surface_after_all_attempts_witness :
  (exists s',
      _make_request_with_retry (platform := Examples.cpython) 5
        (Examples.script [] (Examples.answer 503 (@None string))) Examples.fresh =
        (Raise (HTTPError 503), s')
      /\ sent s' = 5%nat)
  /\ (exists s',
        _make_request_with_retry (platform := Examples.cpython) 5
          (Examples.script [] (@Examples.retry_after string 10000000000)) Examples.fresh =
          (Raise OverflowError, s')
        /\ sent s' = 1%nat)
  /\ (exists s',
        _make_request_with_retry (platform := Examples.cpython) 40
          (Examples.script [] (@Failed string)) Examples.fresh =
          (Raise OverflowError, s')
        /\ sent s' = 35%nat
        /\ raised_by_pause (platform := Examples.cpython) 34 (@Failed string) OverflowError).
Proof.
  split; [ | split ].
  3: { eexists. split; [ vm_compute; reflexivity | ].
       pose proof (errors_surface_after_all_attempts (platform := Examples.cpython) 40
                     (Examples.script [] (@Failed string))
                     Examples.fresh _ OverflowError
                     ltac:(vm_compute; reflexivity)) as [_ Hpause].
       split; [ reflexivity | exact Hpause ]. }
  - eexists. split; [ vm_compute; reflexivity | ].
    apply (errors_surface_after_all_attempts (platform := Examples.cpython) 5
             (Examples.script [] (Examples.answer 503 (@None string)))
             Examples.fresh _ (HTTPError 503)).
    vm_compute. reflexivity.
  - eexists. split; [ vm_compute; reflexivity | ].
    pose proof (errors_surface_after_all_attempts (platform := Examples.cpython) 5
                  (Examples.script [] (@Examples.retry_after string 10000000000))
                  Examples.fresh _ OverflowError
                  ltac:(vm_compute; reflexivity)) as [Hsent _].
    simpl in Hsent |- *. reflexivity.
Defined.

(** Five attempts against a dead transport. *)
Lemma persistent_network_failure_witness :
  exists s' t,
    _make_request_with_retry (platform := Examples.cpython) 5
      (Examples.script [] (@Failed string)) Examples.fresh =
      (Raise ConnectionError, s')
    /\ trace s' = t
    /\ attempts_in t = 5%nat /\ backoffs_in t = 4%nat.
Proof.
  destruct (persistent_network_failure (platform := Examples.cpython) 5
              (Examples.script [] (@Failed string))
              Examples.fresh) as (s' & t & Hrun & Ht & Ha & Hb & _).
  - lia.
  - left. lia.
  - intros n _. unfold Examples.script. destruct n; reflexivity.
  - exists s', t. auto.
Defined.

(** Two attempts against a remote that answers 429, once without a
    header and then with a [Retry-After] of two minutes. *)
Lemma persistent_rate_limiting_witness :
  exists s' t,
    _make_request_with_retry (platform := Examples.cpython) 2
      (Examples.script [Examples.answer 429 (@None string)] (@Examples.retry_after string 120))
      Examples.fresh =
      (Raise PlainException, s')
    /\ trace s' = t
    /\ attempts_in t = 2%nat /\ sleeps429_in t = 2%nat.
Proof.
  destruct (persistent_rate_limiting (platform := Examples.cpython) 2
              (Examples.script [Examples.answer 429 (@None string)]
                 (@Examples.retry_after string 120))
              Examples.fresh) as (s' & t & Hrun & Ht & Ha & Hs & _).
  - intros n _. unfold Examples.script.
    destruct n as [ | n]; [ | destruct n ]; eexists;
      (split; [ reflexivity | ]); (split; [ reflexivity | ]);
      first [ exact I | reflexivity ].
  - exists s', t. auto.
Defined.

(** A [Retry-After] of ten thousand million seconds, and one of minus
    five: one request each, then [OverflowError] and [ValueError]. *)
Lemma rejected_retry_after_ends_the_call_witness :
  (exists s',
      _make_request_with_retry (platform := Examples.cpython) 5
        (Examples.script [] (@Examples.retry_after string 10000000000)) Examples.fresh =
        (Raise OverflowError, s')
      /\ trace s' = [RateLimit; Request])
  /\ (exists s',
        _make_request_with_retry (platform := Examples.cpython) 5
          (Examples.script [] (@Examples.retry_after string (-5))) Examples.fresh =
          (Raise ValueError, s')
        /\ trace s' = [RateLimit; Request]).
Proof.
  split.
  - eexists. split.
    + apply (rejected_retry_after_ends_the_call (platform := Examples.cpython) 5
               (Examples.script [] (@Examples.retry_after string 10000000000))
               Examples.fresh
               {| status_code := 429; retry_after_header := Seconds 10000000000;
                  json := @None string |} 10000000000 OverflowError);
        first [ lia | reflexivity ].
    + reflexivity.
  - eexists. split.
    + apply (rejected_retry_after_ends_the_call (platform := Examples.cpython) 5
               (Examples.script [] (@Examples.retry_after string (-5)))
               Examples.fresh
               {| status_code := 429; retry_after_header := Seconds (-5);
                  json := @None string |} (-5) ValueError);
        first [ lia | reflexivity ].
    + reflexivity.
Defined.

(** ** The fetcher, for any remote *)

Section FetcherInvariants.
Context {platform : Platform}.
Variable max_retries : Z.
Variable rem : remote.

(** The per-issue loop only ever adds to the list it is given, at most
    one issue for each summary. *)
Lemma details_extends (summaries : list issue) :
  forall (issues l : list issue) (s s' : session),
    details max_retries rem summaries issues s = (Ok l, s') ->
    exists more, l = issues ++ more /\ (length more <= length summaries)%nat.
Proof.
  induction summaries as [ | x summaries IH]; simpl; intros issues l s s' Hrun.
  - injection Hrun as <- <-. exists []. rewrite app_nil_r. auto.
  - destruct (id x) as [issue_id | ]; [ | discriminate ].
    destruct (_get_issue_detail max_retries rem issue_id s) as [[d | ] s1].
    + apply IH in Hrun as (more & -> & Hlen).
      exists (d :: more). rewrite <- app_assoc. simpl. split; [ reflexivity | lia ].
    + apply IH in Hrun as (more & -> & Hlen).
      exists more. split; [ reflexivity | lia ].
Qed.

(** X6.  The loop over the summaries of a page never fails because a
    detail request failed: whatever the detail endpoint answers, it
    raises only [KeyError], and only when a summary has no [id];
    otherwise it returns the list it was given followed by at most one
    issue for each summary. *)
Theorem detail_failures_are_not_fatal
    (summaries issues : list issue) (s : session) :
  match fst (details max_retries rem summaries issues s) with
  | Ok l => exists more, l = issues ++ more /\ (length more <= length summaries)%nat
  | Raise e => e = KeyError /\ Exists (fun x => id x = None) summaries
  end.
Proof.
  revert issues s.
  induction summaries as [ | x summaries IH]; intros issues s.
  - simpl. exists []. rewrite app_nil_r. auto.
  - destruct (details max_retries rem (x :: summaries) issues s) as [[l | e] s'] eqn:Hrun.
    + exact (details_extends _ _ _ _ _ Hrun).
    + simpl. simpl in Hrun.
      destruct (id x) as [issue_id | ] eqn:Hid.
      * destruct (_get_issue_detail max_retries rem issue_id s) as [d s1].
        specialize (IH (match d with Some i => issues ++ [i] | None => issues end) s1).
        rewrite Hrun in IH. simpl in IH. destruct IH as [-> Hex].
        split; [ reflexivity | apply Exists_cons_tl; exact Hex ].
      * injection Hrun as <- _.
        split; [ reflexivity | apply Exists_cons_hd; exact Hid ].
Qed.

(** X7.  With [max_results <= 0] no request is sent and the result is
    the empty list, whatever the remote and however the cursor strategy
    would have fared. *)
Theorem nothing_requested_for_empty_cap
    (fuel : nat) (jql : string) (max_results : Z) (s : session) :
  max_results <= 0 ->
  get_issues max_retries rem fuel jql max_results s = Some (Ok [], s)
  /\ _get_issues_v3_search max_retries rem jql max_results s = Some (Ok [], s).
Proof.
  intros Hcap.
  assert ((len (@nil issue) <? max_results) = false) as Hlt
    by (apply Z.ltb_ge; unfold len; simpl; lia).
  split.
  - unfold get_issues, _get_issues_v3_jql. destruct fuel; simpl; rewrite Hlt; reflexivity.
  - unfold _get_issues_v3_search.
    replace (Z.to_nat max_results) with 0%nat by lia. simpl. rewrite Hlt. reflexivity.
Qed.

(** A response the executor returns is an answer of the remote. *)
Lemma returned_response_was_sent {B : Type} (respond : nat -> outcome B)
    (s s' : session) (r : response B) :
  _make_request_with_retry max_retries respond s = (Ok r, s') ->
  exists n, respond n = Replied r.
Proof.
  intros Hrun. apply request_run in Hrun.
  destruct Hrun as (t & _ & _ & _ & _ & _ & Hlast & _). eauto.
Qed.

Lemma search_loop_cap (jql : string) (max_results : Z) (fuel : nat) :
  honours_maxResults rem ->
  forall (issues l : list issue) (start_at : Z) (s s' : session),
    len issues <= Z.max 0 max_results ->
    search_loop max_retries rem fuel jql max_results issues start_at s = Some (Ok l, s') ->
    len l <= Z.max 0 max_results.
Proof.
  intros [Hpage _].
  induction fuel as [ | fuel IH]; intros issues l start_at s s' Hinv Hrun; simpl in Hrun.
  - destruct (len issues <? max_results); [ discriminate | ].
    injection Hrun as <- <-. exact Hinv.
  - destruct (len issues <? max_results) eqn:Hlt;
      [ | injection Hrun as <- <-; exact Hinv ].
    destruct (_make_request_with_retry max_retries _ s) as [[r | e] s1] eqn:Hreq;
      [ | discriminate ].
    destruct (json r) as [data | ] eqn:Hjson; [ | discriminate ].
    apply returned_response_was_sent in Hreq as (n & Hn).
    apply Z.ltb_lt in Hlt.
    assert (1 <= Z.min (max_results - len issues) 100 <= 100) as Hm by lia.
    pose proof (Hpage _ _ _ _ _ _ Hm Hn Hjson) as Hgot.
    assert (len (issues ++ default [] (page_issues data)) <= Z.max 0 max_results) as Hinv'
      by (rewrite len_app; lia).
    destruct ((len (default [] (page_issues data)) =? 0)
              || (default 0 (page_total data) <=?
                  len (issues ++ default [] (page_issues data)))).
    + injection Hrun as <- <-. exact Hinv'.
    + eapply IH; eauto.
Qed.

Lemma jql_loop_cap (jql : string) (max_results : Z) (fuel : nat) :
  honours_maxResults rem ->
  forall (issues l : list issue) (tok : option string) (s s' : session),
    len issues <= Z.max 0 max_results ->
    jql_loop max_retries rem fuel jql max_results issues tok s = Some (Ok l, s') ->
    len l <= Z.max 0 max_results.
Proof.
  intros [_ Hpage].
  induction fuel as [ | fuel IH]; intros issues l tok s s' Hinv Hrun; simpl in Hrun.
  - destruct (len issues <? max_results); [ discriminate | ].
    injection Hrun as <- <-. exact Hinv.
  - destruct (len issues <? max_results) eqn:Hlt;
      [ | injection Hrun as <- <-; exact Hinv ].
    destruct (_make_request_with_retry max_retries _ s) as [[r | e] s1] eqn:Hreq;
      [ | discriminate ].
    destruct (json r) as [data | ] eqn:Hjson; [ | discriminate ].
    apply returned_response_was_sent in Hreq as (n & Hn).
    apply Z.ltb_lt in Hlt.
    assert (1 <= Z.min (max_results - len issues) 100 <= 100) as Hm by lia.
    pose proof (Hpage _ _ _ _ _ _ Hm Hn Hjson) as Hgot.
    destruct (details max_retries rem (default [] (page_issues data)) issues s1)
      as [[issues' | e] s2] eqn:Hdet; [ | discriminate ].
    apply details_extends in Hdet as (more & -> & Hmore).
    assert (len (issues ++ more) <= Z.max 0 max_results) as Hinv'
      by (rewrite len_app; unfold len in *; lia).
    destruct (default true (page_isLast data)
              || negb (is_truthy (page_nextPageToken data))).
    + injection Hrun as <- <-. exact Hinv'.
    + eapply IH; eauto.
Qed.

(** X8.  When the pages of the list endpoints hold no more entries
    than the [maxResults] of the request, [get_issues] never returns
    more than [max_results] issues, whichever strategy produced them. *)
Theorem max_results_is_a_cap
    (fuel : nat) (jql : string) (max_results : Z) (s s' : session) (l : list issue) :
  honours_maxResults rem ->
  get_issues max_retries rem fuel jql max_results s = Some (Ok l, s') ->
  len l <= Z.max 0 max_results.
Proof.
  intros Hhon Hrun. unfold get_issues, _get_issues_v3_jql in Hrun.
  destruct (jql_loop max_retries rem fuel jql max_results [] None s)
    as [[[l1 | e] s1] | ] eqn:Hjql; [ | | discriminate ].
  - injection Hrun as <- <-.
    eapply jql_loop_cap; [ exact Hhon | | exact Hjql ]. unfold len. simpl. lia.
  - unfold _get_issues_v3_search in Hrun.
    eapply search_loop_cap; [ exact Hhon | | exact Hrun ]. unfold len. simpl. lia.
Qed.

End FetcherInvariants.


(** ** Pagination by offset against a remote that serves a list *)

Section OffsetPagination.
Context {platform : Platform}.
Variable max_retries : Z.
Variable rem : remote.
Variable all : list issue.
Hypothesis retries : 0 < max_retries.
Hypothesis serves : serves_list rem all.

Lemma firstn_firstn_skipn {A : Type} (n m : nat) (l : list A) :
  firstn n l ++ firstn m (skipn n l) = firstn (n + m) l.
Proof.
  revert l. induction n as [ | n IH]; intros l; simpl.
  - reflexivity.
  - destruct l as [ | x l]; simpl.
    + destruct m; reflexivity.
    + rewrite IH. reflexivity.
Qed.

(** A request that is answered below 400 returns at the first
    attempt. *)
Lemma first_attempt_succeeds {B : Type} (respond : nat -> outcome B)
    (s : session) (r : response B) :
  respond (sent s) = Replied r -> status_code r < 400 ->
  _make_request_with_retry max_retries respond s = (Ok r, after_send respond s).
Proof.
  intros Hr Hcode. unfold _make_request_with_retry.
  destruct (Z.to_nat max_retries) as [ | k] eqn:Hk; [ lia | ].
  apply attempt_success; assumption.
Qed.

Lemma search_loop_serves (jql : string) (max_results : Z) (fuel : nat) :
  forall (n : nat) (s : session),
    (n <= Z.to_nat max_results)%nat -> (n <= length all)%nat ->
    (Z.to_nat max_results - n <= fuel)%nat ->
    exists s',
      search_loop max_retries rem fuel jql max_results (firstn n all) (Z.of_nat n) s =
      Some (Ok (firstn (Z.to_nat max_results) all), s').
Proof.
  induction fuel as [ | fuel IH]; intros n s Hmax Hall Hfuel.
  - assert (n = Z.to_nat max_results) as -> by lia.
    assert ((len (firstn (Z.to_nat max_results) all) <? max_results) = false) as Hlt.
    { apply Z.ltb_ge. unfold len. rewrite length_firstn. lia. }
    simpl. rewrite Hlt. eauto.
  - assert (len (firstn n all) = Z.of_nat n) as Hlen
      by (unfold len; rewrite length_firstn; lia).
    simpl. rewrite Hlen.
    destruct (Z.of_nat n <? max_results) eqn:Hlt.
    2: { apply Z.ltb_ge in Hlt. assert (n = Z.to_nat max_results) as -> by lia. eauto. }
    apply Z.ltb_lt in Hlt.
    set (m := Z.min (max_results - Z.of_nat n) 100).
    destruct (serves jql m (Z.of_nat n) (sent s)) as (r & data & Hr & Hcode & Hjson & Hpage & Htotal).
    rewrite (first_attempt_succeeds _ s r Hr Hcode), Hjson, Hpage, Htotal. simpl.
    rewrite Nat2Z.id, firstn_firstn_skipn.
    set (g := length (firstn (Z.to_nat m) (skipn n all))).
    assert (g = Nat.min (Z.to_nat m) (length all - n)) as Hg
      by (unfold g; rewrite length_firstn, length_skipn; reflexivity).
    assert (len (firstn (Z.to_nat m) (skipn n all)) = Z.of_nat g) as -> by reflexivity.
    assert (firstn (n + Z.to_nat m) all = firstn (n + g) all) as Hsame.
    { destruct (Nat.le_ge_cases (Z.to_nat m) (length all - n)) as [Hle | Hge].
      - f_equal. lia.
      - rewrite !firstn_all2 by lia. reflexivity. }
    rewrite Hsame.
    assert (len (firstn (n + g) all) = Z.of_nat (n + g)) as ->
      by (unfold len; rewrite length_firstn; lia).
    destruct ((Z.of_nat g =? 0) || (len all <=? Z.of_nat (n + g))) eqn:Hstop.
    + exists (after_send (search rem jql m (Z.of_nat n)) s). do 2 f_equal. f_equal.
      assert (length all <= n + g)%nat as Hend.
      { apply orb_true_iff in Hstop as [H0 | Htot].
        - apply Z.eqb_eq in H0. unfold m in Hg. lia.
        - apply Z.leb_le in Htot. unfold len in Htot. lia. }
      rewrite !firstn_all2 by lia. reflexivity.
    + apply orb_false_iff in Hstop as [H0 Htot].
      apply Z.eqb_neq in H0. apply Z.leb_gt in Htot. unfold len in Htot.
      replace (Z.of_nat n + Z.of_nat g) with (Z.of_nat (n + g)) by lia.
      unfold m in Hg. apply IH; lia.
Qed.

(** X9.  Against a remote whose offset endpoint serves a list page by
    page, and with at least one attempt allowed, the offset strategy
    returns the first [max_results] issues of the list, in order, or
    the whole list when it is shorter. *)
Theorem offset_strategy_returns_prefix (jql : string) (max_results : Z) (s : session) :
  exists s',
    _get_issues_v3_search max_retries rem jql max_results s =
    Some (Ok (firstn (Z.to_nat max_results) all), s').
Proof.
  unfold _get_issues_v3_search.
  apply (search_loop_serves jql max_results (Z.to_nat max_results) 0%nat s); lia.
Qed.

End OffsetPagination.

(** A negative cap against a remote that would serve two issues. *)
Lemma nothing_requested_for_empty_cap_witness :
  get_issues (platform := Examples.cpython)
    5 Examples.cursor_unavailable 3 "project = EX" (-1) Examples.fresh =
  Some (Ok [], Examples.fresh).
Proof.
  apply (nothing_requested_for_empty_cap (platform := Examples.cpython)
    5 Examples.cursor_unavailable
           3 "project = EX" (-1) Examples.fresh).
  lia.
Defined.

Lemma list_server_honours_maxResults (all : list issue) :
  honours_maxResults (list_server all).
Proof.
  split.
  - intros jql m a n r data Hm Hr Hjson. simpl in Hr. injection Hr as <-.
    simpl in Hjson. injection Hjson as <-. simpl.
    unfold len. rewrite length_firstn. lia.
  - intros jql m tok n r data _ Hr. discriminate.
Qed.

(** Three issues on the remote, a cap of two. *)
Lemma max_results_is_a_cap_witness :
  exists l s',
    get_issues (platform := Examples.cpython) 2
      (list_server [Examples.finished; Examples.in_progress; Examples.stale_resolution])
      1 "project = EX" 2 Examples.fresh = Some (Ok l, s')
    /\ len l <= 2.
Proof.
  eexists. eexists. split; [ vm_compute; reflexivity | ].
  eapply (max_results_is_a_cap (platform := Examples.cpython) 2
            (list_server [Examples.finished; Examples.in_progress; Examples.stale_resolution])
            1 "project = EX" 2 Examples.fresh).
  - apply list_server_honours_maxResults.
  - vm_compute. reflexivity.
Defined.

Lemma list_server_serves (all : list issue) : serves_list (list_server all) all.
Proof.
  intros jql m a n. eexists. eexists. simpl.
  split; [ reflexivity | ]. simpl. repeat split.
Qed.

(** The same remote, asked for two issues and for ten. *)
Lemma offset_strategy_returns_prefix_witness :
  (exists s',
      _get_issues_v3_search (platform := Examples.cpython) 5
        (list_server [Examples.finished; Examples.in_progress; Examples.stale_resolution])
        "project = EX" 2 Examples.fresh =
      Some (Ok [Examples.finished; Examples.in_progress], s'))
  /\ (exists s',
        _get_issues_v3_search (platform := Examples.cpython) 5
          (list_server [Examples.finished; Examples.in_progress; Examples.stale_resolution])
          "project = EX" 10 Examples.fresh =
        Some (Ok [Examples.finished; Examples.in_progress; Examples.stale_resolution], s')).
Proof.
  pose (all := [Examples.finished; Examples.in_progress; Examples.stale_resolution]).
  split.
  - exact (offset_strategy_returns_prefix (platform := Examples.cpython)
      5 (list_server all) all ltac:(lia)
             (list_server_serves all) "project = EX" 2 Examples.fresh).
  - exact (offset_strategy_returns_prefix (platform := Examples.cpython)
      5 (list_server all) all ltac:(lia)
             (list_server_serves all) "project = EX" 10 Examples.fresh).
Defined.

(** ** The per-issue detail requests against a remote that answers them *)

Section DetailRequests.
Context {platform : Platform}.
Variable max_retries : Z.
Variable rem : remote.
Variable lookup : string -> issue.
Hypothesis retries : 0 < max_retries.
Hypothesis answers :
  forall issue_id n, exists r,
    issue_detail rem issue_id n = Replied r
    /\ status_code r < 400 /\ json r = Some (lookup issue_id).

Lemma details_answered (ids : list string) :
  forall (summaries issues : list issue) (s : session),
    map id summaries = map Some ids ->
    exists s',
      details max_retries rem summaries issues s = (Ok (issues ++ map lookup ids), s')
      /\ sent s' = (sent s + length summaries)%nat.
Proof.
  induction ids as [ | issue_id ids IH]; intros summaries issues s Hids;
    destruct summaries as [ | x summaries]; try discriminate.
  - exists s. simpl. rewrite app_nil_r. split; [ reflexivity | lia ].
  - simpl in Hids. injection Hids as Hid Hrest.
    simpl. rewrite Hid. unfold _get_issue_detail.
    destruct (answers issue_id (sent s)) as (r & Hr & Hcode & Hjson).
    rewrite (first_attempt_succeeds max_retries retries _ s r Hr Hcode), Hjson.
    destruct (IH summaries (issues ++ [lookup issue_id])
                (after_send (issue_detail rem issue_id) s) Hrest) as (s' & Hrun & Hsent).
    exists s'. rewrite Hrun, <- app_assoc. simpl in Hsent |- *.
    split; [ reflexivity | lia ].
Qed.

(** X10.  When the detail endpoint answers every request below 400
    with the issue asked for, the loop over a page of summaries sends
    exactly one request for each summary and returns the list it was
    given followed by the details, in the order of the page. *)
Theorem details_in_page_order
    (ids : list string) (summaries issues : list issue) (s : session) :
  map id summaries = map Some ids ->
  exists s',
    details max_retries rem summaries issues s = (Ok (issues ++ map lookup ids), s')
    /\ sent s' = (sent s + length summaries)%nat.
Proof. apply details_answered. Qed.

(** X24.  When the first page of the cursor endpoint is the last one
    (it says so, or it carries no token), the cursor strategy asks for
    [min(max_results, 100)] entries without a token, then for the
    detail of each summary, and returns the details in the order of
    the page: one request for the page and one for each issue. *)
Theorem cursor_strategy_on_a_single_page
    (fuel : nat) (jql : string) (max_results : Z) (s : session)
    (r : response page) (data : page) (ids : list string) :
  0 < max_results ->
  search_jql rem jql (Z.min max_results 100) None (sent s) = Replied r ->
  status_code r < 400 ->
  json r = Some data ->
  map id (default [] (page_issues data)) = map Some ids ->
  default true (page_isLast data) || negb (is_truthy (page_nextPageToken data)) = true ->
  exists s',
    _get_issues_v3_jql max_retries rem (S fuel) jql max_results s =
      Some (Ok (map lookup ids), s')
    /\ sent s' = (sent s + 1 + length ids)%nat.
Proof.
  intros Hmax Hr Hcode Hjson Hids Hlast.
  unfold _get_issues_v3_jql. simpl jql_loop.
  assert ((len (@nil issue) <? max_results) = true) as ->
    by (apply Z.ltb_lt; unfold len; simpl; lia).
  replace (max_results - len (@nil issue)) with max_results by (unfold len; simpl; lia).
  rewrite (first_attempt_succeeds max_retries retries _ s r Hr Hcode), Hjson.
  destruct (details_answered ids (default [] (page_issues data)) []
              (after_send (search_jql rem jql (Z.min max_results 100) None) s) Hids)
    as (s' & Hdet & Hsent).
  rewrite Hdet, Hlast. exists s'. split; [ reflexivity | ].
  rewrite Hsent. simpl.
  rewrite <- (length_map id (default [] (page_issues data))), Hids, length_map. lia.
Qed.

End DetailRequests.


(** ** The replay engine: what it raises and when it returns *)

Section ReplayErrors.
Context {F : Type} `{PyFloat F}.
Variable strptime : string -> string -> option datetime.
Variable fromisoformat : string -> option datetime.

Lemma parse_datetime_raises (text : string) (e : exn) :
  parse_datetime strptime fromisoformat text = Raise e -> e = ValueError.
Proof.
  unfold parse_datetime. intros Hp.
  destruct (try_formats strptime text _); [ discriminate | ].
  destruct (fromisoformat _); congruence.
Qed.

Lemma collect_raises (hs : list history) (e : exn) :
  collect strptime fromisoformat hs = Raise e -> e = ValueError.
Proof.
  induction hs as [ | h hs IH]; simpl; [ discriminate | ].
  destruct (parse_datetime strptime fromisoformat (h_created h)) as [d | e1] eqn:Hp; simpl.
  - destruct (collect strptime fromisoformat hs) as [rest | e1]; simpl; [ discriminate | ].
    intros Heq. injection Heq as ->. apply IH. reflexivity.
  - intros Heq. injection Heq as <-. eapply parse_datetime_raises. exact Hp.
Qed.

Lemma dt_sub_raises (a b : datetime) (e : exn) :
  dt_sub a b = Raise e -> e = TypeError.
Proof. unfold dt_sub. destruct (tzinfo a), (tzinfo b); congruence. Qed.

Lemma step_raises (statuses : gset string) (c : status_change) (w : @walk F) (e : exn) :
  step statuses c w = Raise e -> e = TypeError.
Proof.
  unfold step.
  destruct (from_status c) as [fs | ]; [ | destruct (current_cycle_start w) ];
    simpl; try (destruct (in_statuses (to_status c) statuses); discriminate).
  destruct (current_cycle_start w) as [cs | ]; simpl;
    try (destruct (in_statuses (to_status c) statuses); discriminate).
  destruct (bool_decide (fs ∈ statuses)); simpl;
    try (destruct (in_statuses (to_status c) statuses); discriminate).
  destruct (dt_sub (date c) cs) eqn:Hsub; simpl.
  - destruct (in_statuses (to_status c) statuses); discriminate.
  - intros [= <-]. eapply dt_sub_raises. exact Hsub.
Qed.

Lemma replay_raises (statuses : gset string) (cs : list status_change) :
  forall (w : @walk F) (e : exn),
    replay statuses cs w = Raise e -> e = TypeError.
Proof.
  induction cs as [ | c cs IH]; simpl; intros w e Hrun; [ discriminate | ].
  destruct (step statuses c w) as [w1 | e1] eqn:Hstep; simpl in Hrun.
  - eapply IH. exact Hrun.
  - injection Hrun as <-. eapply step_raises. exact Hstep.
Qed.

(** X11.  [calculate_cycle_time] raises nothing but [ValueError], for
    a timestamp that no format parses, and [TypeError], for the
    difference of an aware and a naive timestamp. *)
Theorem replay_raises_only_value_or_type_error
    (clk : clock) (statuses : gset string) (i : issue) (e : exn) :
  @calculate_cycle_time F _ strptime fromisoformat clk statuses i = Raise e ->
  e = ValueError \/ e = TypeError.
Proof.
  unfold calculate_cycle_time, replay_issue.
  destruct (histories i) as [ | h hs]; [ discriminate | ].
  generalize (sorted_histories (h :: hs)). intros shs.
  destruct (parse_datetime strptime fromisoformat (created (issue_fields i)))
    as [cd | e1] eqn:Hcd; simpl.
  2: { intros [= <-]. left. eapply parse_datetime_raises. exact Hcd. }
  destruct (collect strptime fromisoformat shs) as [cs | e1] eqn:Hcs; simpl.
  2: { intros [= <-]. left. eapply collect_raises. exact Hcs. }
  destruct (replay statuses cs (initial statuses cd cs)) as [w | e1] eqn:Hw; simpl.
  2: { intros [= <-]. right. eapply replay_raises. exact Hw. }
  unfold finish.
  destruct (current_cycle_start w) as [start | ]; [ | discriminate ].
  destruct (bool_decide (status_name (issue_fields i) ∈ statuses)); [ | discriminate ].
  unfold closing_date.
  destruct (truthy (resolutiondate (issue_fields i))) as [r | ]; simpl.
  - destruct (parse_datetime strptime fromisoformat r) as [d | e1] eqn:Hr; simpl.
    + destruct (dt_sub d start) eqn:Hsub; simpl; [ discriminate | ].
      intros [= <-]. right. eapply dt_sub_raises. exact Hsub.
    + intros [= <-]. left. eapply parse_datetime_raises. exact Hr.
  - destruct (dt_sub (now clk (tzinfo start)) start) eqn:Hsub; simpl; [ discriminate | ].
    intros [= <-]. right. eapply dt_sub_raises. exact Hsub.
Qed.

End ReplayErrors.

(** ** The replay engine: what the changelog decides *)

Section ReplayShape.
Context {F : Type} `{PyFloat F}.
Variable strptime : string -> string -> option datetime.
Variable fromisoformat : string -> option datetime.

(** Every collected event comes from a status item of some history,
    with the parsed timestamp of that history. *)
Lemma collect_Forall (P : status_change -> Prop) (hs : list history) :
  forall cs,
    collect strptime fromisoformat hs = Ok cs ->
    (forall h d it,
        In h hs -> parse_datetime strptime fromisoformat (h_created h) = Ok d ->
        In it (items h) -> field it = "status" ->
        P {| date := d; from_status := fromString it; to_status := toString it |}) ->
    Forall P cs.
Proof.
  induction hs as [ | h hs IH]; simpl; intros cs Hcs HP.
  - injection Hcs as <-. constructor.
  - apply bind_Ok in Hcs as (d & Hd & Hcs).
    apply bind_Ok in Hcs as (rest & Hrest & Hcs).
    injection Hcs as <-. apply Forall_app. split.
    + unfold status_items. apply Forall_map. apply List.Forall_forall.
      intros it Hit. apply filter_In in Hit as [Hin Hfield].
      apply String.eqb_eq in Hfield. apply (HP h d it); auto.
    + apply IH; [ exact Hrest | ]. intros h' d' it Hh'. apply HP. right. exact Hh'.
Qed.

Lemma collect_length (hs : list history) :
  forall cs,
    collect strptime fromisoformat hs = Ok cs ->
    length cs =
    length (flat_map (fun h => List.filter (fun it => String.eqb (field it) "status")
                                           (items h)) hs).
Proof.
  induction hs as [ | h hs IH]; simpl; intros cs Hcs.
  - injection Hcs as <-. reflexivity.
  - apply bind_Ok in Hcs as (d & Hd & Hcs).
    apply bind_Ok in Hcs as (rest & Hrest & Hcs).
    injection Hcs as <-. unfold status_items.
    rewrite !length_app, length_map, (IH rest Hrest). reflexivity.
Qed.

Lemma sorted_histories_perm (hs : list history) : Permutation (sorted_histories hs) hs.
Proof. apply sorted_perm. Qed.

(** *** Returning *)

Lemma collect_returns (hs : list history) :
  Forall (fun h => parses_aware strptime fromisoformat (h_created h) = true) hs ->
  exists cs,
    collect strptime fromisoformat hs = Ok cs
    /\ Forall (fun c => is_aware (date c) = true) cs.
Proof.
  induction hs as [ | h hs IH]; intros Hhs.
  - exists []. split; [ reflexivity | constructor ].
  - inversion Hhs as [ | ? ? Hh Hrest]; subst.
    destruct (IH Hrest) as (rest & Hcs & Haware).
    unfold parses_aware in Hh. simpl.
    destruct (parse_datetime strptime fromisoformat (h_created h)) as [d | ];
      [ | discriminate ].
    rewrite Hcs. simpl. eexists. split; [ reflexivity | ].
    apply Forall_app. split; [ | exact Haware ].
    unfold status_items. apply Forall_map. apply List.Forall_forall.
    intros it _. exact Hh.
Qed.

Lemma dt_sub_aware (a b : datetime) :
  is_aware a = true -> is_aware b = true -> exists td, dt_sub a b = Ok td.
Proof.
  unfold is_aware, dt_sub. destruct (tzinfo a), (tzinfo b); try discriminate. eauto.
Qed.

Lemma step_returns (statuses : gset string) (c : status_change) (w : @walk F) :
  is_aware (date c) = true ->
  (forall s, current_cycle_start w = Some s -> is_aware s = true) ->
  exists w',
    step statuses c w = Ok w'
    /\ forall s, current_cycle_start w' = Some s -> is_aware s = true.
Proof.
  intros Hc Hw. unfold step.
  assert (exists w1, match from_status c, current_cycle_start w with
                     | Some fs, Some cs =>
                         if bool_decide (fs ∈ statuses) then
                           let* td := dt_sub (date c) cs in
                           Ok {| total_cycle_time := f_add (total_cycle_time w) (hours td);
                                 status_periods :=
                                   status_periods w ++
                                   [{| status := fs; start := cs; end_ := date c;
                                       duration_hours := hours td |}];
                                 current_cycle_start := None |}
                         else Ok w
                     | _, _ => Ok w
                     end = Ok w1
                     /\ forall s, current_cycle_start w1 = Some s -> is_aware s = true)
    as (w1 & -> & Hw1).
  { destruct (from_status c) as [fs | ]; [ | eauto ].
    destruct (current_cycle_start w) as [cs | ] eqn:Hcs; [ | exists w; rewrite Hcs; auto ].
    destruct (bool_decide (fs ∈ statuses)); [ | exists w; rewrite Hcs; auto ].
    destruct (dt_sub_aware (date c) cs Hc (Hw cs eq_refl)) as (td & ->).
    simpl. eexists. split; [ reflexivity | ]. simpl. discriminate. }
  simpl. destruct (in_statuses (to_status c) statuses); eexists;
    (split; [ reflexivity | ]); simpl; [ | exact Hw1 ].
  intros s [= <-]. exact Hc.
Qed.

Lemma replay_returns (statuses : gset string) (cs : list status_change) :
  Forall (fun c => is_aware (date c) = true) cs ->
  forall w : @walk F,
    (forall s, current_cycle_start w = Some s -> is_aware s = true) ->
    exists w',
      replay statuses cs w = Ok w'
      /\ forall s, current_cycle_start w' = Some s -> is_aware s = true.
Proof.
  induction 1 as [ | c cs Hc Hcs IH]; intros w Hw; simpl.
  - eauto.
  - destruct (step_returns statuses c w Hc Hw) as (w1 & -> & Hw1). simpl.
    apply IH. exact Hw1.
Qed.

(** X12.  When every timestamp of an issue (created, the histories,
    the resolution date if there is one) parses to an aware
    [datetime], [calculate_cycle_time] returns a result: it raises
    nothing. *)
Theorem replay_returns_on_aware_timestamps
    (clk : clock) (statuses : gset string) (i : issue) :
  well_timed strptime fromisoformat i = true ->
  exists t ps,
    @calculate_cycle_time F _ strptime fromisoformat clk statuses i = Ok (t, ps).
Proof.
  unfold well_timed. intros Hwt.
  apply andb_true_iff in Hwt as [Hwt Hres].
  apply andb_true_iff in Hwt as [Hcreated Hhist].
  unfold calculate_cycle_time, replay_issue.
  destruct (collect_returns (sorted_histories (histories i))) as (cs & Hcs & Haware).
  { eapply Permutation_Forall; [ symmetry; apply sorted_histories_perm | ].
    apply List.Forall_forall. intros x Hx.
    apply (proj1 (forallb_forall _ _) Hhist x Hx). }
  rewrite Hcs.
  destruct (histories i) as [ | h hs]; [ eauto | ].
  unfold parses_aware in Hcreated.
  destruct (parse_datetime strptime fromisoformat (created (issue_fields i)))
    as [cd | ]; [ | discriminate ].
  simpl bind.
  destruct (replay_returns statuses cs Haware (initial statuses cd cs))
    as (w & Hw & Hstart).
  { unfold initial. simpl. intros s Hs.
    destruct cs as [ | c cs']; [ discriminate | ].
    destruct (in_statuses (to_status c) statuses); [ | discriminate ].
    injection Hs as <-. exact Hcreated. }
  rewrite Hw. simpl bind. unfold finish.
  destruct (current_cycle_start w) as [s | ] eqn:Hs; [ | eauto ].
  destruct (bool_decide (status_name (issue_fields i) ∈ statuses)); [ | eauto ].
  assert (exists e, closing_date strptime fromisoformat clk i s = Ok e
                    /\ is_aware e = true) as (e & -> & He).
  { unfold closing_date.
    destruct (truthy (resolutiondate (issue_fields i))) as [r | ].
    - unfold parses_aware in Hres.
      destruct (parse_datetime strptime fromisoformat r) as [d | ]; [ eauto | discriminate ].
    - eexists. split; [ reflexivity | ].
      specialize (Hstart s eq_refl). unfold is_aware in Hstart |- *. unfold now.
      destruct (tzinfo s); [ reflexivity | discriminate ]. }
  simpl bind.
  destruct (dt_sub_aware e s He (Hstart s eq_refl)) as (td & ->). simpl. eauto.
Qed.

(** *** An issue that never enters the cycle *)

Lemma step_outside (statuses : gset string) (c : status_change) (w : @walk F) :
  in_statuses (to_status c) statuses = false ->
  current_cycle_start w = None ->
  step statuses c w = Ok w.
Proof.
  intros Hto Hw. unfold step. rewrite Hw, Hto.
  destruct (from_status c); reflexivity.
Qed.

Lemma replay_outside (statuses : gset string) (cs : list status_change) (w : @walk F) :
  Forall (fun c => in_statuses (to_status c) statuses = false) cs ->
  current_cycle_start w = None ->
  replay statuses cs w = Ok w.
Proof.
  induction 1 as [ | c cs Hc Hcs IH]; intros Hw; simpl.
  - reflexivity.
  - rewrite (step_outside statuses c w Hc Hw). simpl. apply IH. exact Hw.
Qed.

(** X13.  When no status item of the changelog leads into a cycle
    status, the result is zero hours and no period, whatever the
    issue's current status and resolution date. *)
Theorem never_in_cycle_is_zero
    (clk : clock) (statuses : gset string) (i : issue) (t : F) (ps : list (@period F)) :
  never_enters statuses i = true ->
  calculate_cycle_time strptime fromisoformat clk statuses i = Ok (t, ps) ->
  t = f_zero /\ ps = [].
Proof.
  unfold never_enters, calculate_cycle_time. intros Hnever Hcalc.
  destruct (histories i) as [ | h hs] eqn:Hh.
  { injection Hcalc as <- <-. auto. }
  apply bind_Ok in Hcalc as (w & Hw & Hfin).
  unfold replay_issue in Hw. rewrite Hh in Hw.
  apply bind_Ok in Hw as (cd & _ & Hw).
  apply bind_Ok in Hw as (cs & Hcs & Hw).
  assert (Forall (fun c => in_statuses (to_status c) statuses = false) cs) as Hout.
  { apply (collect_Forall _ _ cs Hcs). intros x d it Hx _ Hit Hfield. simpl.
    apply (Permutation_in _ (sorted_histories_perm (h :: hs))) in Hx.
    pose proof (proj1 (forallb_forall _ _) Hnever x Hx) as Hitems.
    pose proof (proj1 (forallb_forall _ _) Hitems it Hit) as Hitem.
    cbv beta in Hitem. rewrite Hfield in Hitem. simpl in Hitem.
    apply negb_true_iff in Hitem. exact Hitem. }
  rewrite replay_outside in Hw; [ | exact Hout | ].
  - injection Hw as <-. unfold finish, initial in Hfin. simpl in Hfin.
    destruct cs as [ | c cs']; [ injection Hfin as <- <-; auto | ].
    inversion Hout as [ | ? ? Hc _]; subst. rewrite Hc in Hfin.
    injection Hfin as <- <-. auto.
  - unfold initial. simpl. destruct cs as [ | c cs']; [ reflexivity | ].
    inversion Hout as [ | ? ? Hc _]; subst. rewrite Hc. reflexivity.
Qed.

(** *** How many periods *)

Lemma replay_length (statuses : gset string) (cs : list status_change) :
  forall w w' : @walk F,
    replay statuses cs w = Ok w' ->
    (length (status_periods w') <= length (status_periods w) + length cs)%nat.
Proof.
  induction cs as [ | c cs IH]; simpl; intros w w' Hrun.
  - injection Hrun as <-. lia.
  - apply bind_Ok in Hrun as (w1 & Hstep & Hrest).
    apply IH in Hrest. apply step_cases in Hstep.
    destruct Hstep as [(fs & cs0 & td & _ & _ & _ & _ & _ & Hp & _) | (_ & _ & Hp & _)];
      rewrite Hp in Hrest; [ rewrite length_app in Hrest; simpl in Hrest | ]; lia.
Qed.

(** X14.  The result never has more periods than the changelog has
    status items, plus one for the period still open at the end. *)
Theorem periods_bounded_by_status_items
    (clk : clock) (statuses : gset string) (i : issue) (t : F) (ps : list (@period F)) :
  calculate_cycle_time strptime fromisoformat clk statuses i = Ok (t, ps) ->
  (length ps <= length (status_items_of i) + 1)%nat.
Proof.
  unfold calculate_cycle_time, status_items_of. intros Hcalc.
  destruct (histories i) as [ | h hs] eqn:Hh.
  { injection Hcalc as <- <-. simpl. lia. }
  apply bind_Ok in Hcalc as (w & Hw & Hfin).
  unfold replay_issue in Hw. rewrite Hh in Hw.
  apply bind_Ok in Hw as (cd & _ & Hw).
  apply bind_Ok in Hw as (cs & Hcs & Hw).
  apply replay_length in Hw. simpl in Hw.
  apply collect_length in Hcs.
  rewrite (Permutation_length
             (Permutation_flat_map _ (sorted_histories_perm (h :: hs)))) in Hcs.
  apply (finish_cases strptime fromisoformat) in Hfin.
  destruct Hfin as [(s & e & td & _ & _ & _ & _ & _ & ->) | (_ & _ & ->)];
    [ rewrite length_app; simpl in * | ]; lia.
Qed.

End ReplayShape.


(** A creation date that no format parses. *)
Lemma replay_raises_only_value_or_type_error_witness :
  Examples.calculate Examples.at_12 MoreExamples.unparsable = Raise ValueError.
Proof.
  destruct (Examples.calculate Examples.at_12 MoreExamples.unparsable) as [r | e] eqn:Hrun.
  - vm_compute in Hrun. discriminate.
  - destruct (replay_raises_only_value_or_type_error Jira.strptime Jira.fromisoformat
                Examples.at_12 Examples.statuses MoreExamples.unparsable e Hrun)
      as [-> | ->].
    + reflexivity.
    + vm_compute in Hrun. discriminate.
Defined.

(** The finished example: all its timestamps carry an offset. *)
Lemma replay_returns_on_aware_timestamps_witness :
  exists t ps, Examples.calculate Examples.at_12 Examples.finished = Ok (t, ps).
Proof.
  apply (replay_returns_on_aware_timestamps Jira.strptime Jira.fromisoformat
           Examples.at_12 Examples.statuses Examples.finished).
  vm_compute. reflexivity.
Defined.

(** Backlog to Done, with a change of summary that mentions Doing. *)
Lemma never_in_cycle_is_zero_witness :
  Examples.calculate Examples.at_12 MoreExamples.straight_to_done = Ok (0%Q, []).
Proof.
  destruct (Examples.calculate Examples.at_12 MoreExamples.straight_to_done)
    as [[t ps] | e] eqn:Hrun.
  - destruct (never_in_cycle_is_zero Jira.strptime Jira.fromisoformat
                Examples.at_12 Examples.statuses MoreExamples.straight_to_done t ps)
      as [-> ->]; [ vm_compute; reflexivity | exact Hrun | reflexivity ].
  - vm_compute in Hrun. discriminate.
Defined.

(** The finished example: three status items, two periods. *)
Lemma periods_bounded_by_status_items_witness :
  exists t ps,
    Examples.calculate Examples.at_12 Examples.finished = Ok (t, ps)
    /\ (length ps <= 4)%nat.
Proof.
  eexists. eexists. split; [ vm_compute; reflexivity | ].
  apply (periods_bounded_by_status_items Jira.strptime Jira.fromisoformat
           Examples.at_12 Examples.statuses Examples.finished 2%Q).
  vm_compute. reflexivity.
Defined.

(** ** The replay engine: when the order of the text is the order in time *)

Lemma dt_leb_refl (d : datetime) : dt_leb d d = true.
Proof.
  unfold dt_leb, dt_sub. destruct (tzinfo d); simpl; apply Z.leb_le; lia.
Qed.

Lemma nondecreasing_of_strongly_sorted (ds : list datetime) :
  StronglySorted (fun a b => dt_leb a b = true) ds -> nondecreasing ds = true.
Proof.
  induction 1 as [ | a ds Hds IH Ha]; [ reflexivity | ].
  destruct ds as [ | b ds]; [ reflexivity | ].
  change (dt_leb a b && nondecreasing (b :: ds) = true).
  inversion Ha; subst. apply andb_true_iff. split; assumption.
Qed.

Section ReplayOrder.
Variable strptime : string -> string -> option datetime.
Variable fromisoformat : string -> option datetime.

Lemma status_items_sorted (d : datetime) (its : list item) (rest : list datetime) :
  Forall (fun x => dt_leb d x = true) rest ->
  StronglySorted (fun a b => dt_leb a b = true) rest ->
  StronglySorted (fun a b => dt_leb a b = true)
    (map date (status_items d its) ++ rest).
Proof.
  intros Hd Hrest. unfold status_items.
  induction (List.filter (fun it => String.eqb (field it) "status") its) as [ | it l IH];
    simpl; [ exact Hrest | ].
  constructor; [ exact IH | ].
  apply Forall_app. split; [ | exact Hd ].
  rewrite map_map. apply Forall_map. apply List.Forall_forall.
  intros x _. simpl. apply dt_leb_refl.
Qed.

Lemma collect_sorted (hs : list history) :
  StronglySorted (fun a b => String.leb (h_created a) (h_created b) = true) hs ->
  (forall a b da db,
      In a hs -> In b hs ->
      String.leb (h_created a) (h_created b) = true ->
      parse_datetime strptime fromisoformat (h_created a) = Ok da ->
      parse_datetime strptime fromisoformat (h_created b) = Ok db ->
      dt_leb da db = true) ->
  forall cs,
    collect strptime fromisoformat hs = Ok cs ->
    StronglySorted (fun a b => dt_leb a b = true) (map date cs).
Proof.
  induction 1 as [ | h hs Hhs IH Hh]; intros Hagree cs Hcs; simpl in Hcs.
  - injection Hcs as <-. constructor.
  - apply bind_Ok in Hcs as (d & Hd & Hcs).
    apply bind_Ok in Hcs as (rest & Hrest & Hcs).
    injection Hcs as <-. rewrite map_app.
    apply status_items_sorted.
    + apply Forall_map.
      apply (collect_Forall strptime fromisoformat _ hs rest Hrest).
      intros b db it Hb Hdb _ _. simpl.
      apply (Hagree h b d db); auto.
      * left. reflexivity.
      * right. exact Hb.
      * apply (proj1 (List.Forall_forall _ _) Hh b Hb).
    + apply IH; [ | exact Hrest ].
      intros a b da db Ha Hb. apply Hagree; right; assumption.
Qed.

(** X15.  When the text order of the histories' timestamps agrees with
    their order in time (as it does while they share one layout and
    one UTC offset), the status changes are replayed in the order of
    their parsed timestamps. *)
Theorem replay_is_chronological_when_text_order_agrees
    (hs : list history) (cs : list status_change) :
  text_order_is_time_order strptime fromisoformat hs = true ->
  collect strptime fromisoformat (sorted_histories hs) = Ok cs ->
  nondecreasing (map date cs) = true.
Proof.
  intros Hagree Hcs. apply nondecreasing_of_strongly_sorted.
  apply (collect_sorted (sorted_histories hs)); [ | | exact Hcs ].
  - apply Sorted_StronglySorted.
    + intros a b c Hab Hbc. eapply string_leb_trans; eauto.
    + apply sorted_sorted. apply String.leb_total.
  - intros a b da db Ha Hb Hab Hda Hdb.
    apply (Permutation_in _ (sorted_perm String.leb h_created hs)) in Ha, Hb.
    unfold text_order_is_time_order in Hagree.
    pose proof (proj1 (forallb_forall _ _) Hagree a Ha) as Hrow. cbv beta in Hrow.
    pose proof (proj1 (forallb_forall _ _) Hrow b Hb) as Hcell. cbv beta in Hcell.
    rewrite Hab, Hda, Hdb in Hcell. exact Hcell.
Qed.

End ReplayOrder.

(** The finished example: one layout, one offset. *)
Lemma replay_is_chronological_when_text_order_agrees_witness :
  exists cs,
    collect Jira.strptime Jira.fromisoformat
      (sorted_histories (histories Examples.finished)) = Ok cs
    /\ nondecreasing (map date cs) = true.
Proof.
  eexists. split; [ vm_compute; reflexivity | ].
  apply (replay_is_chronological_when_text_order_agrees Jira.strptime Jira.fromisoformat
           (histories Examples.finished)).
  - vm_compute. reflexivity.
  - vm_compute. reflexivity.
Defined.

(** ** The replay engine: where the creation date is used *)

Section CreationDate.
Context {F : Type} `{PyFloat F}.
Variable strptime : string -> string -> option datetime.
Variable fromisoformat : string -> option datetime.

(** The starts of the periods stay within a set of timestamps that
    holds the open start and the timestamps of the events to come. *)
Lemma replay_starts (statuses : gset string) (ds : list datetime)
    (cs : list status_change) :
  Forall (fun c => In (date c) ds) cs ->
  forall w w' : @walk F,
    replay statuses cs w = Ok w' ->
    (forall s, current_cycle_start w = Some s -> In s ds) ->
    Forall (fun p => In (start p) ds) (status_periods w) ->
    (forall s, current_cycle_start w' = Some s -> In s ds)
    /\ Forall (fun p => In (start p) ds) (status_periods w').
Proof.
  induction 1 as [ | c cs Hc Hcs IH]; simpl; intros w w' Hrun Hopen Hps.
  - injection Hrun as <-. auto.
  - apply bind_Ok in Hrun as (w1 & Hstep & Hrest).
    apply (IH w1 w' Hrest); apply step_cases in Hstep; simpl in Hstep;
      destruct Hstep as [(fs & cs0 & td & _ & _ & Hcs0 & _ & _ & Hp & Hs)
                        | (_ & _ & Hp & Hs)].
    + intros s. rewrite Hs.
      destruct (in_statuses (to_status c) statuses); [ | discriminate ].
      intros [= <-]. exact Hc.
    + intros s. rewrite Hs.
      destruct (in_statuses (to_status c) statuses); [ | apply Hopen ].
      intros [= <-]. exact Hc.
    + rewrite Hp. apply Forall_app. split; [ exact Hps | ].
      constructor; [ simpl; auto | constructor ].
    + rewrite Hp. exact Hps.
Qed.

(** X16.  The creation date opens a period only when the first
    replayed status change leaves a cycle status for a cycle status:
    the first period then runs from the creation date to that change,
    under the status left.  In every other case each period starts at
    the timestamp of a status change, also when the first change
    enters a cycle status. *)
Theorem creation_date_as_period_start
    (clk : clock) (statuses : gset string) (i : issue)
    (t : F) (ps : list (@period F))
    (created_date : datetime) (c0 : status_change) (cs : list status_change) :
  calculate_cycle_time strptime fromisoformat clk statuses i = Ok (t, ps) ->
  parse_datetime strptime fromisoformat (created (issue_fields i)) = Ok created_date ->
  collect strptime fromisoformat (sorted_histories (histories i)) = Ok (c0 :: cs) ->
  (in_statuses (from_status c0) statuses = true ->
   in_statuses (to_status c0) statuses = true ->
   exists fs td more,
     from_status c0 = Some fs
     /\ dt_sub (date c0) created_date = Ok td
     /\ ps = {| status := fs; start := created_date; end_ := date c0;
                duration_hours := hours td |} :: more)
  /\ (in_statuses (from_status c0) statuses = false
      \/ in_statuses (to_status c0) statuses = false ->
      Forall (fun p => In (start p) (map date (c0 :: cs))) ps).
Proof.
  unfold calculate_cycle_time, replay_issue. intros Hcalc Hcd Hcs.
  rewrite Hcd, Hcs in Hcalc.
  destruct (histories i) as [ | h hs]; [ vm_compute in Hcs; discriminate | ].
  apply bind_Ok in Hcalc as (w & Hw & Hfin).
  apply bind_Ok in Hw as (cd' & Hcd' & Hw). injection Hcd' as <-.
  apply bind_Ok in Hw as (cs' & Hcs' & Hw). injection Hcs' as <-.
  change (replay statuses (c0 :: cs) (initial statuses created_date (c0 :: cs)) = Ok w)
    with ((let* w' := step statuses c0 (initial statuses created_date (c0 :: cs)) in
           replay statuses cs w') = Ok w) in Hw.
  apply bind_Ok in Hw as (w1 & Hstep & Hrest).
  apply (finish_cases strptime fromisoformat) in Hfin.
  assert (current_cycle_start (initial (F:=F) statuses created_date (c0 :: cs)) =
          if in_statuses (to_status c0) statuses then Some created_date else None)
    as Hinit by reflexivity.
  assert (status_periods (initial (F:=F) statuses created_date (c0 :: cs)) = [])
    as Hinitp by reflexivity.
  assert (Forall (fun c => In (date c) (map date (c0 :: cs))) cs) as Hdates.
  { apply List.Forall_forall. intros c Hc. right. apply in_map. exact Hc. }
  split.
  - intros Hfrom Hto. rewrite Hto in Hinit.
    apply step_cases in Hstep. cbv zeta in Hstep. rewrite Hinit, Hinitp in Hstep.
    destruct Hstep as [(fs & cs0 & td & Hfs & _ & Hcs0 & Htd & _ & Hp & _)
                      | ([Hout | Hnone] & _)]; [ | congruence | discriminate ].
    injection Hcs0 as <-.
    apply replay_appends in Hrest as (more & Hmore). rewrite Hp in Hmore. simpl in Hmore.
    exists fs, td.
    destruct Hfin as [(s & e & td' & _ & _ & _ & _ & _ & ->) | (_ & _ & ->)];
      rewrite Hmore; simpl; eauto.
  - intros Hcase.
    assert ((forall s, current_cycle_start w1 = Some s -> In s (map date (c0 :: cs)))
            /\ status_periods w1 = []) as [Hopen1 Hps1].
    { apply step_cases in Hstep. cbv zeta in Hstep. rewrite Hinit, Hinitp in Hstep.
      destruct Hstep as [(fs & cs0 & td & Hfs & Hin & Hcs0 & _) | (_ & _ & Hp & Hs)].
      - exfalso. destruct Hcase as [Hfrom | Hto].
        + rewrite Hfs in Hfrom. simpl in Hfrom.
          apply bool_decide_eq_false in Hfrom. contradiction.
        + rewrite Hto in Hcs0. discriminate.
      - split; [ | exact Hp ]. intros s. rewrite Hs.
        destruct (in_statuses (to_status c0) statuses); [ | discriminate ].
        intros [= <-]. left. reflexivity. }
    destruct (replay_starts statuses (map date (c0 :: cs)) cs Hdates w1 w Hrest Hopen1)
      as [Hopen Hps].
    { rewrite Hps1. constructor. }
    destruct Hfin as [(s & e & td' & Hs & _ & _ & _ & _ & ->) | (_ & _ & ->)];
      [ | exact Hps ].
    apply Forall_app. split; [ exact Hps | ].
    constructor; [ simpl; apply Hopen; exact Hs | constructor ].
Qed.

End CreationDate.

(** Created in Doing: the first period starts at the creation date.
    Created in Backlog: the first period starts at the first change. *)
Lemma creation_date_as_period_start_witness :
  let d09 := {| wall := 1709629200000000; tzinfo := Some 0 |} in
  let d10 := {| wall := 1709632800000000; tzinfo := Some 0 |} in
  (exists t p more,
      Examples.calculate Examples.at_12 MoreExamples.created_in_cycle = Ok (t, p :: more)
      /\ start p = d09 /\ end_ p = d10 /\ status p = "Doing")
  /\ (exists t ps,
        Examples.calculate Examples.at_12 Examples.finished = Ok (t, ps)
        /\ Forall (fun p => start p <> d09) ps).
Proof.
  intros d09 d10. split.
  - destruct (Examples.calculate Examples.at_12 MoreExamples.created_in_cycle)
      as [[t ps] | e] eqn:Hrun; [ | vm_compute in Hrun; discriminate ].
    destruct (creation_date_as_period_start Jira.strptime Jira.fromisoformat
                Examples.at_12 Examples.statuses MoreExamples.created_in_cycle t ps
                d09
                {| date := d10; from_status := Some "Doing"; to_status := Some "Review" |}
                [ {| date := {| wall := 1709640000000000; tzinfo := Some 0 |};
                     from_status := Some "Review"; to_status := Some "Done" |} ]
                Hrun ltac:(vm_compute; reflexivity) ltac:(vm_compute; reflexivity))
      as [Hfirst _].
    destruct Hfirst as (fs & td & more & Hfs & _ & ->);
      [ vm_compute; reflexivity | vm_compute; reflexivity | ].
    injection Hfs as <-. eexists. eexists. eexists.
    split; [ reflexivity | ]. repeat split.
  - eexists. eexists. split; [ vm_compute; reflexivity | ].
    eapply Forall_impl.
    + apply (proj2 (creation_date_as_period_start Jira.strptime Jira.fromisoformat
                      Examples.at_12 Examples.statuses Examples.finished _ _
                      d09
                      {| date := d10; from_status := Some "Backlog";
                         to_status := Some "Doing" |}
                      [ {| date := {| wall := 1709636400000000; tzinfo := Some 0 |};
                           from_status := Some "Doing"; to_status := Some "Review" |};
                        {| date := {| wall := 1709640000000000; tzinfo := Some 0 |};
                           from_status := Some "Review"; to_status := Some "Done" |} ]
                      ltac:(vm_compute; reflexivity) ltac:(vm_compute; reflexivity)
                      ltac:(vm_compute; reflexivity))).
      left. vm_compute. reflexivity.
    + intros p Hin Heq. simpl in Hin. rewrite Heq in Hin.
      destruct Hin as [Hd | [Hd | [Hd | []]]]; discriminate.
Defined.

(** ** The assembler: records and issues *)

Section AssemblerShape.
Context {platform : Platform}.
Context {F : Type} `{PyFloat F}.
Variable strptime : string -> string -> option datetime.
Variable fromisoformat : string -> option datetime.

Lemma assemble_all_nth (clocks : nat -> clock) (statuses : gset string)
    (issues : list issue) :
  forall (k0 : nat) (ms : list (@metric F)),
    assemble_all strptime fromisoformat clocks k0 statuses issues = Ok ms ->
    length ms = length issues
    /\ forall k i,
         nth_error issues k = Some i ->
         exists m,
           nth_error ms k = Some m
           /\ metric_key m = key i
           /\ metric_status m = status_name (issue_fields i)
           /\ calculate_cycle_time strptime fromisoformat (clocks (k0 + k)%nat) statuses i =
              Ok (cycle_time_hours m, metric_status_periods m).
Proof.
  induction issues as [ | i0 issues IH]; simpl; intros k0 ms Hms.
  - injection Hms as <-. split; [ reflexivity | ]. intros [ | k] i; discriminate.
  - apply bind_Ok in Hms as (m0 & Hm0 & Hms).
    apply bind_Ok in Hms as (ms' & Hms' & Hms).
    injection Hms as <-. destruct (IH (S k0) ms' Hms') as [Hlen Hnth].
    split; [ simpl; lia | ].
    intros [ | k] i Hi; simpl in Hi.
    + injection Hi as <-. exists m0. split; [ reflexivity | ].
      unfold assemble in Hm0. apply bind_Ok in Hm0 as ([t ps] & Hcalc & Hm0).
      injection Hm0 as <-. simpl. rewrite Nat.add_0_r. auto.
    + destruct (Hnth k i Hi) as (m & Hm & Hrest). exists m.
      split; [ exact Hm | ].
      replace (k0 + S k)%nat with (S k0 + k)%nat by lia. exact Hrest.
Qed.

(** X17.  [extract_metrics] returns one record for each fetched issue,
    in the order fetched: the [k]-th record carries the key and status
    of the [k]-th issue and the result of its replay at the [k]-th
    reading of the clock. *)
Theorem records_follow_issues
    (max_retries : Z) (rem : remote) (fuel : nat) (clocks : nat -> clock)
    (statuses : gset string) (jql : string) (max_results : Z)
    (s s' : session) (ms : list (@metric F)) :
  extract_metrics strptime fromisoformat max_retries rem fuel clocks statuses
    jql max_results s = Some (Ok ms, s') ->
  exists issues,
    get_issues max_retries rem fuel jql max_results s = Some (Ok issues, s')
    /\ length ms = length issues
    /\ forall k i,
         nth_error issues k = Some i ->
         exists m,
           nth_error ms k = Some m
           /\ metric_key m = key i
           /\ metric_status m = status_name (issue_fields i)
           /\ calculate_cycle_time strptime fromisoformat (clocks k) statuses i =
              Ok (cycle_time_hours m, metric_status_periods m).
Proof.
  unfold extract_metrics. intros Hrun.
  destruct (get_issues max_retries rem fuel jql max_results s)
    as [[[issues | e] s1] | ]; [ | discriminate | discriminate ].
  injection Hrun as Hms <-. exists issues. split; [ reflexivity | ].
  exact (assemble_all_nth clocks statuses issues 0%nat ms Hms).
Qed.

(** X18.  The extraction is all or nothing: when the replay of one
    fetched issue raises, [extract_metrics] raises and returns no
    record at all, although every request has already been made. *)
Theorem one_bad_issue_fails_the_extraction
    (max_retries : Z) (rem : remote) (fuel : nat) (clocks : nat -> clock)
    (statuses : gset string) (jql : string) (max_results : Z)
    (s s' : session) (issues : list issue) (k : nat) (i : issue) (e : exn) :
  get_issues max_retries rem fuel jql max_results s = Some (Ok issues, s') ->
  nth_error issues k = Some i ->
  @calculate_cycle_time F _ strptime fromisoformat (clocks k) statuses i = Raise e ->
  exists e',
    extract_metrics strptime fromisoformat max_retries rem fuel clocks statuses
      jql max_results s = Some (Raise e', s').
Proof.
  intros Hget Hi Hbad. unfold extract_metrics. rewrite Hget.
  destruct (assemble_all strptime fromisoformat clocks 0 statuses issues)
    as [ms | e'] eqn:Hms; [ | eauto ].
  apply assemble_all_nth in Hms as [_ Hnth].
  destruct (Hnth k i Hi) as (m & _ & _ & _ & Hok). simpl in Hok. congruence.
Qed.

End AssemblerShape.

(** The offset endpoint serves two issues. *)
Lemma records_follow_issues_witness :
  exists ms s',
    extract_metrics (F:=Q) (platform := Examples.cpython) Jira.strptime Jira.fromisoformat 5
      Examples.cursor_unavailable 1 (fun _ => Examples.at_12) Examples.statuses
      "project = EX" 100 Examples.fresh = Some (Ok ms, s')
    /\ map metric_key ms = ["EX-1"; "EX-5"]
    /\ length ms = 2%nat.
Proof.
  eexists. eexists. split; [ vm_compute; reflexivity | ].
  split; [ reflexivity | ].
  destruct (records_follow_issues (platform := Examples.cpython) Jira.strptime Jira.fromisoformat 5
              Examples.cursor_unavailable 1 (fun _ => Examples.at_12) Examples.statuses
              "project = EX" 100 Examples.fresh _ _ ltac:(vm_compute; reflexivity))
    as (issues & Hget & Hlen & _).
  vm_compute in Hget. injection Hget as <-. exact Hlen.
Defined.

(** The offset endpoint serves the finished example and an issue with
    an unparsable creation date. *)
Lemma one_bad_issue_fails_the_extraction_witness :
  exists e' s',
    extract_metrics (F:=Q) (platform := Examples.cpython) Jira.strptime Jira.fromisoformat 5
      (list_server [Examples.finished; MoreExamples.unparsable]) 1
      (fun _ => Examples.at_12) Examples.statuses
      "project = EX" 100 Examples.fresh = Some (Raise e', s').
Proof.
  destruct (get_issues (platform := Examples.cpython)
    5 (list_server [Examples.finished; MoreExamples.unparsable]) 1
              "project = EX" 100 Examples.fresh) as [[[issues | e] s'] | ] eqn:Hget;
    try (vm_compute in Hget; discriminate).
  destruct (one_bad_issue_fails_the_extraction (F:=Q) Jira.strptime Jira.fromisoformat 5
              (list_server [Examples.finished; MoreExamples.unparsable]) 1
              (fun _ => Examples.at_12) Examples.statuses "project = EX" 100
              Examples.fresh s' issues 1 MoreExamples.unparsable ValueError Hget)
    as (e' & Hrun).
  - vm_compute in Hget. injection Hget as <- _. reflexivity.
  - vm_compute. reflexivity.
  - eauto.
Defined.

(** A page of two summaries whose details the remote serves. *)
Lemma details_in_page_order_witness :
  let lookup := fun issue_id =>
    if String.eqb issue_id "EX-1" then Examples.finished else Examples.in_progress in
  exists s',
    details (platform := Examples.cpython)
      5 (detail_server lookup) [Examples.finished; Examples.in_progress] []
      Examples.fresh = (Ok [Examples.finished; Examples.in_progress], s')
    /\ sent s' = 2%nat.
Proof.
  intros lookup.
  refine (details_in_page_order (platform := Examples.cpython) 5 (detail_server lookup) lookup _ _
            ["EX-1"; "EX-2"] [Examples.finished; Examples.in_progress] []
            Examples.fresh _).
  - lia.
  - intros issue_id n. eexists. split; [ reflexivity | ]. split; [ | reflexivity ].
    simpl. lia.
  - reflexivity.
Defined.

(** ** The base URL *)

Lemma rstrip_slashes_only (n : nat) : rstrip "/" (slashes n) = EmptyString.
Proof. induction n as [ | n IH]; simpl; [ reflexivity | rewrite IH; reflexivity ]. Qed.

Lemma rstrip_append_slashes (u : string) (n : nat) :
  rstrip "/" (String.append u (slashes n)) = rstrip "/" u.
Proof.
  induction u as [ | a u IH]; simpl.
  - apply rstrip_slashes_only.
  - rewrite IH. reflexivity.
Qed.

Lemma rstrip_no_trailing (c : ascii) (s : string) : ends_with c (rstrip c s) = false.
Proof.
  induction s as [ | a s IH]; simpl; [ reflexivity | ].
  destruct (rstrip c s) as [ | b r] eqn:Hr.
  - destruct (Ascii.eqb a c) eqn:Hac; simpl; [ reflexivity | exact Hac ].
  - exact IH.
Qed.

Lemma rstrip_is_prefix (s : string) :
  exists n, s = String.append (rstrip "/" s) (slashes n).
Proof.
  induction s as [ | a s [n IH]]; simpl.
  - exists 0%nat. reflexivity.
  - destruct (rstrip "/" s) as [ | b r] eqn:Hr.
    + simpl in IH. destruct (Ascii.eqb_spec a "/") as [-> | Hne].
      * exists (S n). simpl. rewrite IH. reflexivity.
      * exists n. simpl. rewrite IH. reflexivity.
    + exists n. simpl. rewrite IH at 1. reflexivity.
Qed.

(** X20.  The base URL is stored without its trailing slashes: what is
    stored never ends in a slash, it differs from the URL given only
    by slashes at the end, and a URL given with any number of trailing
    slashes addresses the same three endpoints. *)
Theorem trailing_slashes_of_base_url_are_ignored (url : string) (n : nat) :
  ends_with "/" (base_url_of url) = false
  /\ (exists k, url = String.append (base_url_of url) (slashes k))
  /\ search_jql_url (String.append url (slashes n)) = search_jql_url url
  /\ search_url (String.append url (slashes n)) = search_url url
  /\ forall issue_id,
       issue_url (String.append url (slashes n)) issue_id = issue_url url issue_id.
Proof.
  unfold search_jql_url, search_url, issue_url, base_url_of.
  rewrite rstrip_append_slashes.
  split; [ apply rstrip_no_trailing | ].
  split; [ apply rstrip_is_prefix | ]. auto.
Qed.


(** ** The fallback of [parse_datetime] *)

Section ParseFallback.
Variable strptime : string -> string -> option datetime.
Variable fromisoformat : string -> option datetime.

Lemma contains_append (c : ascii) (s t : string) :
  contains c (String.append s (String c t)) = true.
Proof.
  induction s as [ | a s IH]; simpl.
  - rewrite Ascii.eqb_refl. reflexivity.
  - destruct (Ascii.eqb a c); [ reflexivity | exact IH ].
Qed.

Lemma split_head_append (c : ascii) (s t : string) :
  contains c s = false -> split_head c (String.append s (String c t)) = s.
Proof.
  induction s as [ | a s IH]; simpl; intros Hs.
  - rewrite Ascii.eqb_refl. reflexivity.
  - destruct (Ascii.eqb a c); [ discriminate | ]. rewrite IH by exact Hs. reflexivity.
Qed.

(** X21.  When neither format matches a text that holds a [+], the
    fallback parses only what precedes the first [+]: the UTC offset
    and anything else after it play no part in the result, so two
    texts that differ only after the [+] parse alike. *)
Theorem fallback_ignores_text_after_plus (s t : string) :
  contains "+" s = false ->
  strptime (String.append s (String "+" t)) "%Y-%m-%dT%H:%M:%S.%f%z" = None ->
  strptime (String.append s (String "+" t)) "%Y-%m-%dT%H:%M:%S%z" = None ->
  parse_datetime strptime fromisoformat (String.append s (String "+" t)) =
  match fromisoformat s with
  | Some d => Ok d
  | None => Raise ValueError
  end.
Proof.
  intros Hs H1 H2. unfold parse_datetime, try_formats.
  rewrite H1, H2, contains_append, split_head_append by exact Hs. reflexivity.
Qed.

End ParseFallback.

(** A timestamp with a space for the [T]: 10:00 at UTC+05:30 is read
    as a naive 10:00, and so is 10:00 at UTC+01:00. *)
Lemma fallback_ignores_text_after_plus_witness :
  parse_datetime Jira.strptime Iso.fromisoformat "2024-03-05 10:00:00+05:30" =
    Ok {| wall := 1709632800000000; tzinfo := None |}
  /\ parse_datetime Jira.strptime Iso.fromisoformat "2024-03-05 10:00:00+01:00" =
     Ok {| wall := 1709632800000000; tzinfo := None |}.
Proof.
  split.
  - exact (fallback_ignores_text_after_plus Jira.strptime Iso.fromisoformat
             "2024-03-05 10:00:00" "05:30" eq_refl eq_refl eq_refl).
  - exact (fallback_ignores_text_after_plus Jira.strptime Iso.fromisoformat
             "2024-03-05 10:00:00" "01:00" eq_refl eq_refl eq_refl).
Defined.


(** ** The environment file *)

Section EnvFile.

Local Infix "+++" := String.append (at level 60, right associativity).
Local Arguments String.append : simpl nomatch.

Lemma lstrip_all_space (w s : string) :
  all_space w = true -> Env.lstrip (w +++ s) = Env.lstrip s.
Proof.
  induction w as [ | a w IH]; simpl; intros Hw; [ reflexivity | ].
  apply andb_true_iff in Hw as [Ha Hw]. rewrite Ha. apply IH. exact Hw.
Qed.


















Lemma load_ignored (env_vars : gmap string string) (line : string) :
  all_space line = true
  \/ (exists pre rest, all_space pre = true /\ line = pre +++ String "#" rest) ->
  Env.load_line env_vars line = env_vars.
Proof.
  intros [Hblank | (pre & rest & Hpre & ->)]; unfold Env.load_line, Env.strip.
  - assert (Env.lstrip line = EmptyString) as ->; [ | reflexivity ].
    induction line as [ | a l IH]; simpl in *; [ reflexivity | ].
    apply andb_true_iff in Hblank as [-> Hl]. apply IH. exact Hl.
  - rewrite (lstrip_all_space pre _ Hpre). simpl.
    destruct (Env.rstrip rest); reflexivity.
Qed.

(** X23.  Blank lines and lines whose first character after the
    indentation is a hash change nothing, even when the comment holds
    an assignment: the file loads as it does without them. *)
Theorem blank_and_comment_lines_are_ignored (before after : list string) (line : string) :
  all_space line = true
  \/ (exists pre rest, all_space pre = true /\ line = pre +++ String "#" rest) ->
  Env.load_env_file (Some (before ++ line :: after)) =
  Env.load_env_file (Some (before ++ after)).
Proof.
  intros Hline. unfold Env.load_env_file.
  rewrite !fold_left_app. simpl. rewrite (load_ignored _ line Hline). reflexivity.
Qed.

End EnvFile.


(** An assignment that is commented out. *)
Lemma blank_and_comment_lines_are_ignored_witness :
  Env.load_env_file (Some ["JIRA_URL=https://example.atlassian.net";
                           "  # JIRA_URL=https://other.example";
                           "DEFAULT_RATE_LIMIT=30"]) =
  Env.load_env_file (Some ["JIRA_URL=https://example.atlassian.net";
                           "DEFAULT_RATE_LIMIT=30"]).
Proof.
  apply (blank_and_comment_lines_are_ignored
           ["JIRA_URL=https://example.atlassian.net"]
           ["DEFAULT_RATE_LIMIT=30"]
           "  # JIRA_URL=https://other.example").
  right. exists "  ", " JIRA_URL=https://other.example". split; reflexivity.
Defined.


(** Two summaries on one page: three requests in all. *)
Lemma cursor_strategy_on_a_single_page_witness :
  let lookup := fun issue_id =>
    if String.eqb issue_id "EX-1" then Examples.finished else Examples.in_progress in
  exists s',
    _get_issues_v3_jql (platform := Examples.cpython) 5
      (cursor_server [Examples.finished; Examples.in_progress] lookup)
      1 "project = EX" 50 Examples.fresh =
      Some (Ok [Examples.finished; Examples.in_progress], s')
    /\ sent s' = 3%nat.
Proof.
  intros lookup.
  refine (cursor_strategy_on_a_single_page (platform := Examples.cpython) 5
            (cursor_server [Examples.finished; Examples.in_progress] lookup) lookup
            _ _ 0 "project = EX" 50 Examples.fresh _ _ ["EX-1"; "EX-2"]
            _ eq_refl _ eq_refl eq_refl eq_refl).
  - lia.
  - intros issue_id n. eexists. split; [ reflexivity | ]. split; [ | reflexivity ].
    simpl. lia.
  - lia.
  - simpl. lia.
Defined.


(** ** Termination of the two strategies *)

Section Termination.
Context {platform : Platform}.
Variable max_retries : Z.
Variable rem : remote.

Lemma search_loop_requests (jql : string) (max_results : Z) (fuel : nat) :
  forall (issues : list issue) (start_at : Z) (s s' : session)
         (r : result (list issue)),
    search_loop max_retries rem fuel jql max_results issues start_at s = Some (r, s') ->
    (sent s' <= sent s + Z.to_nat max_retries * fuel)%nat.
Proof.
  induction fuel as [ | fuel IH]; intros issues start_at s s' r Hrun; simpl in Hrun.
  - destruct (len issues <? max_results); [ discriminate | ].
    injection Hrun as _ <-. lia.
  - destruct (len issues <? max_results); [ | injection Hrun as _ <-; lia ].
    destruct (_make_request_with_retry max_retries _ s) as [r1 s1] eqn:Hreq.
    apply request_run in Hreq as (t & _ & Hsent & Hle & _).
    assert (sent s1 <= sent s + Z.to_nat max_retries)%nat as Hs1 by lia.
    destruct r1 as [x | e]; [ | injection Hrun as _ <-; lia ].
    destruct (json x) as [data | ]; [ | injection Hrun as _ <-; lia ].
    destruct ((len (default [] (page_issues data)) =? 0)
              || (default 0 (page_total data) <=?
                  len (issues ++ default [] (page_issues data))));
      [ injection Hrun as _ <-; lia | ].
    apply IH in Hrun. lia.
Qed.

(** X25.  The offset strategy always comes to an end, whatever the
    remote answers: every page that does not end the loop lengthens
    the result, so at most [max_results] pages are asked for, each
    with at most [max_retries] requests. *)
Theorem offset_strategy_terminates (jql : string) (max_results : Z) (s : session) :
  exists r s',
    _get_issues_v3_search max_retries rem jql max_results s = Some (r, s')
    /\ (sent s' <= sent s + Z.to_nat max_retries * Z.to_nat max_results)%nat.
Proof.
  unfold _get_issues_v3_search.
  destruct (search_loop_returns max_retries rem jql max_results (Z.to_nat max_results)
              [] 0 s) as ([r s'] & Hrun).
  { unfold len. simpl. lia. }
  exists r, s'. split; [ exact Hrun | ].
  eapply search_loop_requests. exact Hrun.
Qed.

(** X26.  The cursor strategy can go on for ever: against a remote
    whose cursor endpoint keeps answering, below 400, an empty page
    that is not the last and carries a token, the loop never gathers an
    issue and never leaves, so neither the strategy nor [get_issues]
    returns or raises, however many iterations are allowed. *)
Theorem cursor_strategy_can_spin (jql : string) (max_results : Z) (s : session) :
  0 < max_retries -> 0 < max_results ->
  (forall m tok n, exists r data,
      search_jql rem jql m tok n = Replied r
      /\ status_code r < 400
      /\ json r = Some data
      /\ default [] (page_issues data) = []
      /\ page_isLast data = Some false
      /\ is_truthy (page_nextPageToken data) = true) ->
  forall fuel,
    _get_issues_v3_jql max_retries rem fuel jql max_results s = None
    /\ get_issues max_retries rem fuel jql max_results s = None.
Proof.
  intros Hretries Hmax Hspin fuel.
  assert (forall tok s0, jql_loop max_retries rem fuel jql max_results [] tok s0 = None)
    as Hloop.
  { assert ((len (@nil issue) <? max_results) = true) as Hlt
      by (apply Z.ltb_lt; unfold len; simpl; lia).
    induction fuel as [ | fuel IH]; intros tok s0; simpl; rewrite Hlt; [ reflexivity | ].
    destruct (Hspin (Z.min (max_results - len (@nil issue)) 100) (truthy tok) (sent s0))
      as (r & data & Hr & Hcode & Hjson & Hempty & Hnotlast & Htoken).
    rewrite (first_attempt_succeeds max_retries Hretries _ s0 r Hr Hcode), Hjson, Hempty.
    simpl. rewrite Hnotlast, Htoken. simpl. apply IH. }
  unfold get_issues, _get_issues_v3_jql. rewrite Hloop. auto.
Qed.

End Termination.

(** Empty pages with a token: a thousand iterations are not enough. *)
Lemma cursor_strategy_can_spin_witness :
  get_issues (platform := Examples.cpython)
    5 empty_pages 1000 "project = EX" 100 Examples.fresh = None.
Proof.
  apply (cursor_strategy_can_spin (platform := Examples.cpython)
    5 empty_pages "project = EX" 100 Examples.fresh);
    [ lia | lia | ].
  intros m tok n. eexists. eexists. split; [ reflexivity | ].
  simpl. repeat split.
Defined.
